(** * crud.py : a CRUD helper over a MongoDB collection

    Shallow embedding of [MongoConfig] and of the class [CRUD]
    (constructor, [_connect], [_ensure_collection], [create], [read],
    [update], [delete]).  PyMongo and the server behind it are external to
    the module: they appear as a record of operations, [Driver], over which
    the whole class is parametrised.  Every method is a computation in a
    state-and-exception monad whose state holds the attributes of the
    instance, the state of the driver, the lines printed so far and the
    list of driver calls issued so far. *)

From Stdlib Require Import ZArith Lia List Bool Ascii.
From stdpp Require Import gmap strings list fin_maps.

Local Open Scope string_scope.
Local Open Scope Z_scope.

Set Warnings "-register-all".

(** ** Python values *)

(** The values a document is made of; [VObjectId] stands for the
    identifiers the driver assigns. *)
Inductive value : Type :=
| VNone
| VBool (b : bool)
| VInt (n : Z)
| VStr (s : string)
| VObjectId (n : Z)
| VList (items : list value)
| VDict (fields : list (string * value)).

(** [isinstance(v, dict)] *)
Definition isinstance_dict (v : value) : bool :=
  match v with VDict _ => true | _ => false end.

(** [v is not None] *)
Definition is_not_None (v : value) : bool :=
  match v with VNone => false | _ => true end.

(** ** Exceptions *)

(** The classes that matter here.  [PyMongoSub] is any proper subclass of
    [errors.PyMongoError] (ConnectionFailure, DuplicateKeyError, ...);
    [OtherError] is any class outside that hierarchy other than the two
    builtins named. *)
Inductive exn_class : Type :=
| ValueError
| RuntimeError
| PyMongoError
| PyMongoSub (name : string)
| OtherError (name : string).

(** An exception object: its class, [str(e)], and [__cause__]. *)
Inductive exn : Type :=
| Exn (cls : exn_class) (msg : string) (cause : option exn).

Definition exn_cls (e : exn) : exn_class := let 'Exn c _ _ := e in c.
Definition str (e : exn) : string := let 'Exn _ m _ := e in m.
Definition exn_cause (e : exn) : option exn := let 'Exn _ _ c := e in c.

(** [isinstance(e, errors.PyMongoError)], the test of every [except]
    clause of the module. *)
Definition isinstance_PyMongoError (e : exn) : bool :=
  match exn_cls e with
  | PyMongoError | PyMongoSub _ => true
  | _ => false
  end.

Definition is_RuntimeError (e : exn) : bool :=
  match exn_cls e with RuntimeError => true | _ => false end.

Definition is_ValueError (e : exn) : bool :=
  match exn_cls e with ValueError => true | _ => false end.

(** The result of evaluating a Python expression or call. *)
Inductive outcome (A : Type) : Type :=
| Ok (a : A)
| Raise (e : exn).
Arguments Ok {A} a.
Arguments Raise {A} e.

(** ** MongoConfig *)

Record MongoConfig : Type := {
  username : string;
  password : string;
  host : string;
  port : Z;
  authSource : string;
  tls : bool;
  replicaSet : option string
}.

(** The dataclass defaults. *)
Definition MongoConfig_default : MongoConfig :=
  {| username := ""; password := ""; host := "localhost"; port := 27017;
     authSource := "aac"; tls := false; replicaSet := None |}.

(** Truth value of a [str] and of an [Optional[str]]. *)
Definition truthy_str (s : string) : bool :=
  match s with EmptyString => false | _ => true end.

Definition truthy_opt_str (o : option string) : bool :=
  match o with None => false | Some s => truthy_str s end.

(** The dictionary [client_kwargs] built at the head of [_connect]. *)
Definition client_kwargs (config : MongoConfig) : gmap string value :=
  let kw : gmap string value :=
    <["serverSelectionTimeoutMS" := VInt 5000]>
    (<["connectTimeoutMS" := VInt 5000]>
    (<["tls" := VBool (tls config)]>
    (<["port" := VInt (port config)]>
    (<["host" := VStr (host config)]> ∅)))) in
  let kw :=
    if truthy_str (username config) && truthy_str (password config)
    then <["authSource" := VStr (authSource config)]>
         (<["password" := VStr (password config)]>
         (<["username" := VStr (username config)]> kw))
    else kw in
  match replicaSet config with
  | Some rs => if truthy_str rs then <["replicaSet" := VStr rs]> kw else kw
  | None => kw
  end.

(** ** Result objects of the driver *)

Record InsertOneResult : Type := {
  acknowledged : bool;
  inserted_id : value
}.

(** [modified_count] and [deleted_count] are properties: reading one may
    raise, and may give [None]. *)
Record UpdateResult : Type := { modified_count : outcome (option Z) }.
Record DeleteResult : Type := { deleted_count : outcome (option Z) }.

(** [int(n or 0)] for [n] an [int] or [None]. *)
Definition int_or_0 (n : option Z) : Z :=
  match n with
  | None => 0
  | Some k => if k =? 0 then 0 else k
  end.

(** ** The driver *)

(** PyMongo as seen from the module: every call takes the state of the
    driver and of the deployment behind it and either returns or raises. *)
Record Driver : Type := {
  Server : Type;
  Client : Type;
  Database : Type;
  Coll : Type;
  Cursor : Type;
  drv_MongoClient : gmap string value -> Server -> outcome Client * Server;
  drv_ping : Client -> Server -> outcome unit * Server;
  drv_client_getitem : Client -> string -> Server -> outcome Database * Server;
  drv_database_getitem : Database -> string -> Server -> outcome Coll * Server;
  drv_insert_one : Coll -> value -> Server -> outcome InsertOneResult * Server;
  drv_find : Coll -> value -> Server -> outcome Cursor * Server;
  drv_list : Cursor -> Server -> outcome (list value) * Server;
  drv_update_one : Coll -> value -> value -> Server -> outcome UpdateResult * Server;
  drv_update_many : Coll -> value -> value -> Server -> outcome UpdateResult * Server;
  drv_delete_one : Coll -> value -> Server -> outcome DeleteResult * Server;
  drv_delete_many : Coll -> value -> Server -> outcome DeleteResult * Server
}.

(** ** The class CRUD *)

Section Adapter.

Variable D : Driver.

(** The attributes of an instance. *)
Record CRUD : Type := {
  _client : option (Client D);
  _collection : option (Coll D);
  _db_name : string;
  _collection_name : string
}.

(** A driver call, as recorded in the world. *)
Inductive call : Type :=
| CallMongoClient (kwargs : gmap string value)
| CallPing (cl : Client D)
| CallClientGetitem (cl : Client D) (name : string)
| CallDatabaseGetitem (db : Database D) (name : string)
| CallInsertOne (c : Coll D) (document : value)
| CallFind (c : Coll D) (query : value)
| CallList (cur : Cursor D)
| CallUpdateOne (c : Coll D) (query new_values : value)
| CallUpdateMany (c : Coll D) (query new_values : value)
| CallDeleteOne (c : Coll D) (query : value)
| CallDeleteMany (c : Coll D) (query : value).

Record world : Type := {
  self : CRUD;
  server : Server D;
  stdout : list string;
  calls : list call
}.

Definition M (A : Type) : Type := world -> outcome A * world.

Definition ret {A} (a : A) : M A := fun w => (Ok a, w).
Definition raise {A} (e : exn) : M A := fun w => (Raise e, w).
Definition bind {A B} (m : M A) (k : A -> M B) : M B :=
  fun w => match m w with
           | (Ok a, w') => k a w'
           | (Raise e, w') => (Raise e, w')
           end.

(** [try: body  except C as e: handler e], with [catches] the test
    [isinstance(e, C)]. *)
Definition try_except {A} (body : M A) (catches : exn -> bool)
    (handler : exn -> M A) : M A :=
  fun w => match body w with
           | (Ok a, w') => (Ok a, w')
           | (Raise e, w') => if catches e then handler e w' else (Raise e, w')
           end.

Notation "'let!' x ':=' m 'in' k" := (bind m (fun x => k))
  (at level 10, x name, m at level 100, k at level 200).
Notation "m ';;;' k" := (bind m (fun _ => k))
  (at level 100, k at level 200, right associativity).

Definition get_self : M CRUD := fun w => (Ok (self w), w).

Definition set_self (s : CRUD) : M unit :=
  fun w => (Ok tt, {| self := s; server := server w; stdout := stdout w;
                      calls := calls w |}).

(** [self._client = v] and [self._collection = v] *)
Definition assign_client (v : option (Client D)) : M unit :=
  let! s := get_self in
  set_self {| _client := v; _collection := _collection s;
              _db_name := _db_name s; _collection_name := _collection_name s |}.

Definition assign_collection (v : option (Coll D)) : M unit :=
  let! s := get_self in
  set_self {| _client := _client s; _collection := v;
              _db_name := _db_name s; _collection_name := _collection_name s |}.

(** [print(line)] *)
Definition print (line : string) : M unit :=
  fun w => (Ok tt, {| self := self w; server := server w;
                      stdout := stdout w ++ [line]; calls := calls w |}).

(** A call into the driver: it is recorded, then run on the driver's
    state. *)
Definition invoke {A} (c : call) (f : Server D -> outcome A * Server D) : M A :=
  fun w => let '(r, s') := f (server w) in
           (r, {| self := self w; server := s'; stdout := stdout w;
                  calls := calls w ++ [c] |}).

Definition MongoClient (kwargs : gmap string value) : M (Client D) :=
  invoke (CallMongoClient kwargs) (drv_MongoClient D kwargs).
Definition ping (cl : Client D) : M unit :=
  invoke (CallPing cl) (drv_ping D cl).
Definition client_getitem (cl : Client D) (name : string) : M (Database D) :=
  invoke (CallClientGetitem cl name) (drv_client_getitem D cl name).
Definition database_getitem (db : Database D) (name : string) : M (Coll D) :=
  invoke (CallDatabaseGetitem db name) (drv_database_getitem D db name).
Definition insert_one (c : Coll D) (document : value) : M InsertOneResult :=
  invoke (CallInsertOne c document) (drv_insert_one D c document).
Definition find (c : Coll D) (query : value) : M (Cursor D) :=
  invoke (CallFind c query) (drv_find D c query).
Definition list_ (cur : Cursor D) : M (list value) :=
  invoke (CallList cur) (drv_list D cur).
Definition update_one (c : Coll D) (query new_values : value) : M UpdateResult :=
  invoke (CallUpdateOne c query new_values) (drv_update_one D c query new_values).
Definition update_many (c : Coll D) (query new_values : value) : M UpdateResult :=
  invoke (CallUpdateMany c query new_values) (drv_update_many D c query new_values).
Definition delete_one (c : Coll D) (query : value) : M DeleteResult :=
  invoke (CallDeleteOne c query) (drv_delete_one D c query).
Definition delete_many (c : Coll D) (query : value) : M DeleteResult :=
  invoke (CallDeleteMany c query) (drv_delete_many D c query).

(** Reading a property of a result object. *)
Definition property {A} (o : outcome A) : M A := fun w => (o, w).

(** *** Internal helpers *)

Definition _connect (config : MongoConfig) : M unit :=
  try_except
    (let kwargs := client_kwargs config in
     let! cl := MongoClient kwargs in
     assign_client (Some cl) ;;;
     ping cl ;;;
     let! s := get_self in
     let! db := client_getitem cl (_db_name s) in
     let! s := get_self in
     let! coll := database_getitem db (_collection_name s) in
     assign_collection (Some coll))
    isinstance_PyMongoError
    (fun e => raise (Exn RuntimeError
                         ("[MongoDB] Connection failed: " +:+ str e) (Some e))).

Definition _ensure_collection : M (Coll D) :=
  let! s := get_self in
  match _collection s with
  | None => raise (Exn RuntimeError "[MongoDB] Collection is not initialized." None)
  | Some c => ret c
  end.

(** [__init__] *)
Definition init (config : MongoConfig) (db_name collection_name : string) : M unit :=
  set_self {| _client := None; _collection := None;
              _db_name := db_name; _collection_name := collection_name |} ;;;
  _connect config.

(** The expression [CRUD(config, db_name, collection_name)]: it has a
    value, the instance, only when [__init__] returns. *)
Definition new_CRUD (config : MongoConfig) (db_name collection_name : string)
    : M CRUD :=
  init config db_name collection_name ;;;
  get_self.

(** *** Public operations *)

Definition create (document : value) : M bool :=
  try_except
    (if negb (isinstance_dict document)
     then raise (Exn ValueError "create() expects a dict document." None)
     else
       let! coll := _ensure_collection in
       let! result := insert_one coll document in
       ret (acknowledged result && is_not_None (inserted_id result)))
    isinstance_PyMongoError
    (fun e => print ("[MongoDB][CREATE] Error: " +:+ str e) ;;; ret false).

Definition read (query : value) : M (list value) :=
  try_except
    (if negb (isinstance_dict query)
     then raise (Exn ValueError "read() expects a dict query." None)
     else
       let! coll := _ensure_collection in
       let! cursor := find coll query in
       list_ cursor)
    isinstance_PyMongoError
    (fun e => print ("[MongoDB][READ] Error: " +:+ str e) ;;; ret []).

Definition update (query new_values : value) (many : bool) : M Z :=
  try_except
    (if negb (isinstance_dict query)
     then raise (Exn ValueError "update() expects a dict query." None)
     else if negb (isinstance_dict new_values)
     then raise (Exn ValueError
            "update() expects a dict update spec (e.g., {'$set': {...}})." None)
     else
       let! coll := _ensure_collection in
       let! result := (if many then update_many coll query new_values
                       else update_one coll query new_values) in
       let! n := property (modified_count result) in
       ret (int_or_0 n))
    isinstance_PyMongoError
    (fun e => print ("[MongoDB][UPDATE] Error: " +:+ str e) ;;; ret 0).

Definition delete (query : value) (many : bool) : M Z :=
  try_except
    (if negb (isinstance_dict query)
     then raise (Exn ValueError "delete() expects a dict query." None)
     else
       let! coll := _ensure_collection in
       let! result := (if many then delete_many coll query
                       else delete_one coll query) in
       let! n := property (deleted_count result) in
       ret (int_or_0 n))
    isinstance_PyMongoError
    (fun e => print ("[MongoDB][DELETE] Error: " +:+ str e) ;;; ret 0).

End Adapter.

Arguments self {D} w.
Arguments server {D} w.
Arguments stdout {D} w.
Arguments calls {D} w.
Arguments _client {D} c.
Arguments _collection {D} c.
Arguments _db_name {D} c.
Arguments _collection_name {D} c.

(** ** A reference deployment

    PyMongo and the MongoDB server are called by the module and are not
    part of it.  The definitions of this part stand in for them, so that
    the class can be run on concrete data and so that what an operation
    does to the stored records can be stated.  The query language and the
    update language are left open: [matches query doc] tells whether a
    record satisfies a filter and [apply_update spec doc] is the record
    after an update. *)

(** Structural equality of values, the comparison that decides whether an
    update changed a record. *)
Fixpoint value_eqb (a b : value) : bool :=
  match a, b with
  | VNone, VNone => true
  | VBool x, VBool y => Bool.eqb x y
  | VInt x, VInt y => x =? y
  | VStr x, VStr y => String.eqb x y
  | VObjectId x, VObjectId y => x =? y
  | VList xs, VList ys =>
      (fix go (xs ys : list value) : bool :=
         match xs, ys with
         | [], [] => true
         | x :: xs', y :: ys' => value_eqb x y && go xs' ys'
         | _, _ => false
         end) xs ys
  | VDict xs, VDict ys =>
      (fix go (xs ys : list (string * value)) : bool :=
         match xs, ys with
         | [], [] => true
         | (k, x) :: xs', (k', y) :: ys' =>
             String.eqb k k' && value_eqb x y && go xs' ys'
         | _, _ => false
         end) xs ys
  | _, _ => false
  end.

(** [doc.get(key)] on the fields of a mapping. *)
Fixpoint get_field (key : string) (fields : list (string * value)) : option value :=
  match fields with
  | [] => None
  | (k, v) :: rest => if String.eqb k key then Some v else get_field key rest
  end.

Fixpoint set_field (key : string) (v : value) (fields : list (string * value))
    : list (string * value) :=
  match fields with
  | [] => [(key, v)]
  | (k, v0) :: rest =>
      if String.eqb k key then (k, v) :: rest else (k, v0) :: set_field key v rest
  end.

Record mem_server : Type := {
  reachable : bool;
  collections : gmap (string * string) (list value);
  next_oid : Z
}.

(** The records of one collection; a collection never written to is
    empty. *)
Definition contents (s : mem_server) (c : string * string) : list value :=
  default [] (collections s !! c).

Definition put_contents (s : mem_server) (c : string * string)
    (docs : list value) : mem_server :=
  {| reachable := reachable s;
     collections := <[c := docs]> (collections s);
     next_oid := next_oid s |}.

(** Whether a key names an update operator: it starts with a dollar. *)
Definition is_operator (key : string) : bool :=
  match key with
  | String c _ => Ascii.eqb c "$"%char
  | EmptyString => false
  end.

Definition empty_update : exn := Exn ValueError "update cannot be empty" None.

Definition not_an_operator_update : exn :=
  Exn ValueError "update only works with $ operators" None.

(** Modelled from the spec: the check PyMongo, which is not in the source
    tree, makes of the update argument of [update_one] and [update_many].
    A bare mapping of fields is a driver-level rejection: an empty mapping
    and a mapping whose first key is not an operator are refused with a
    [ValueError]. *)
Definition update_spec_error (spec : value) : option exn :=
  match spec with
  | VDict [] => Some empty_update
  | VDict ((key, _) :: _) =>
      if is_operator key then None else Some not_an_operator_update
  | _ => Some (Exn (OtherError "TypeError")
                 "update must be an instance of dict" None)
  end.

Definition unreachable_error : exn :=
  Exn (PyMongoSub "ServerSelectionTimeoutError") "No servers found yet" None.

Definition duplicate_key_error : exn :=
  Exn (PyMongoSub "DuplicateKeyError") "E11000 duplicate key error" None.

Section Reference.

Variable matches : value -> value -> bool.
Variable apply_update : value -> value -> value.

(** A call that needs the server. *)
Definition online {A} (f : mem_server -> outcome A * mem_server)
    : mem_server -> outcome A * mem_server :=
  fun s => if reachable s then f s else (Raise unreachable_error, s).

Definition has_id (id : value) (doc : value) : bool :=
  match doc with
  | VDict fields =>
      match get_field "_id" fields with
      | Some v => value_eqb v id
      | None => false
      end
  | _ => false
  end.

(** Modelled from the spec: [Collection.insert_one] of PyMongo, which is
    not in the source tree.  The document is stored as a single record and
    an identifier is assigned to it when it has none; an identifier already
    in use is a constraint violation, a driver-level failure. *)
Definition mem_insert_one (c : string * string) (document : value)
    : mem_server -> outcome InsertOneResult * mem_server :=
  online (fun s =>
    match document with
    | VDict fields =>
        match get_field "_id" fields with
        | Some id =>
            if existsb (has_id id) (contents s c)
            then (Raise duplicate_key_error, s)
            else (Ok {| acknowledged := true; inserted_id := id |},
                  put_contents s c (contents s c ++ [document]))
        | None =>
            let id := VObjectId (next_oid s) in
            (Ok {| acknowledged := true; inserted_id := id |},
             {| reachable := reachable s;
                collections :=
                  <[c := (contents s c ++ [VDict (("_id", id) :: fields)])%list]>
                  (collections s);
                next_oid := next_oid s + 1 |})
        end
    | _ => (Raise (Exn (OtherError "TypeError")
                     "document must be an instance of dict" None), s)
    end).

(** The first record that matches is updated. *)
Fixpoint update_first (query spec : value) (docs : list value) : list value :=
  match docs with
  | [] => []
  | d :: rest =>
      if matches query d then apply_update spec d :: rest
      else d :: update_first query spec rest
  end.

Definition update_all (query spec : value) (docs : list value) : list value :=
  map (fun d => if matches query d then apply_update spec d else d) docs.

(** The first record that matches is removed. *)
Fixpoint delete_first (query : value) (docs : list value) : list value :=
  match docs with
  | [] => []
  | d :: rest => if matches query d then rest else d :: delete_first query rest
  end.

Definition delete_all (query : value) (docs : list value) : list value :=
  List.filter (fun d => negb (matches query d)) docs.

(** How many records differ, position by position. *)
Fixpoint count_changed (before after : list value) : Z :=
  match before, after with
  | d :: ds, d' :: ds' =>
      (if value_eqb d d' then 0 else 1) + count_changed ds ds'
  | _, _ => 0
  end.

Definition count_matching (query : value) (docs : list value) : Z :=
  Z.of_nat (length (List.filter (matches query) docs)).

(** Modelled from the spec: [Collection.update_many] and
    [Collection.update_one] of PyMongo, which are not in the source tree.
    A mapping that is not an update-operator specification is rejected by
    the driver, before the server is asked anything.  Otherwise, with
    [many] the update is applied to every matching record, and without it
    to at most one, the first match; the count is that of the records
    actually modified. *)
Definition mem_update (many : bool) (c : string * string) (query spec : value)
    : mem_server -> outcome UpdateResult * mem_server :=
  fun s =>
    match update_spec_error spec with
    | Some e => (Raise e, s)
    | None =>
        online (fun s =>
          let before := contents s c in
          let after := if many then update_all query spec before
                       else update_first query spec before in
          (Ok {| modified_count := Ok (Some (count_changed before after)) |},
           put_contents s c after)) s
    end.

(** Modelled from the spec: [Collection.delete_many] and
    [Collection.delete_one] of PyMongo, which are not in the source tree.
    With [many] every match is removed, otherwise at most one, the first
    match; the count is that of the records actually deleted. *)
Definition mem_delete (many : bool) (c : string * string) (query : value)
    : mem_server -> outcome DeleteResult * mem_server :=
  online (fun s =>
    let before := contents s c in
    let after := if many then delete_all query before
                 else delete_first query before in
    (Ok {| deleted_count :=
             Ok (Some (Z.of_nat (length before) - Z.of_nat (length after))) |},
     put_contents s c after)).

(** Modelled from the spec: the PyMongo client, which is not in the source
    tree.  Opening a client and taking a database or a collection from it
    do not reach the server; the ping, [find] followed by the
    materialisation of its cursor, and the writes do, and fail with a
    driver error when the server cannot be reached.  [find] gives all the
    records of the collection that match, in stored order. *)
Definition MemDriver : Driver := {|
  Server := mem_server;
  Client := unit;
  Database := string;
  Coll := string * string;
  Cursor := (string * string) * value;
  drv_MongoClient := fun _ s => (Ok tt, s);
  drv_ping := fun _ => online (fun s => (Ok tt, s));
  drv_client_getitem := fun _ name s => (Ok name, s);
  drv_database_getitem := fun db name s => (Ok (db, name), s);
  drv_insert_one := mem_insert_one;
  drv_find := fun c query s => (Ok (c, query), s);
  drv_list := fun cur =>
    online (fun s => (Ok (List.filter (matches (snd cur)) (contents s (fst cur))), s));
  drv_update_one := mem_update false;
  drv_update_many := mem_update true;
  drv_delete_one := mem_delete false;
  drv_delete_many := mem_delete true
|}.

End Reference.

(** Two concrete languages for the examples: a filter matches a record
    when every field of the filter is a field of the record with an equal
    value, and an update spec [{"$set": {...}}] overwrites the fields it
    lists. *)
Definition eq_match (query doc : value) : bool :=
  match query, doc with
  | VDict qs, VDict fields =>
      forallb (fun kv => match get_field (fst kv) fields with
                         | Some v => value_eqb v (snd kv)
                         | None => false
                         end) qs
  | _, _ => false
  end.

Definition set_update (spec doc : value) : value :=
  match spec, doc with
  | VDict ops, VDict fields =>
      match get_field "$set" ops with
      | Some (VDict kvs) =>
          VDict (fold_left (fun acc kv => set_field (fst kv) (snd kv) acc) kvs fields)
      | _ => doc
      end
  | _, _ => doc
  end.

Definition Mongo : Driver := MemDriver eq_match set_update.

(** A world before any instance exists. *)
Definition blank (s : mem_server) : world Mongo :=
  Build_world Mongo (Build_CRUD Mongo None None "" "") s [] [].

Definition empty_server : mem_server :=
  {| reachable := true; collections := ∅; next_oid := 1 |}.

Definition rex : value := VDict [("name", VStr "Rex"); ("species", VStr "Dog")].

Definition animals : string * string := ("aac", "animals").

(** A world whose instance is bound to the collection [aac.animals] of the
    reference deployment, as the constructor leaves it. *)
Definition connected (s : mem_server) : world Mongo :=
  Build_world Mongo (Build_CRUD Mongo (Some tt) (Some animals) "aac" "animals")
    s [] [].

Definition offline_server : mem_server :=
  {| reachable := false; collections := ∅; next_oid := 1 |}.

(** Servers and a configuration used in the examples. *)
Definition one_dog : mem_server :=
  {| reachable := true;
     collections := {[ animals := [rex] ]};
     next_oid := 1 |}.

Definition two_dogs : mem_server :=
  {| reachable := true;
     collections :=
       {[ animals := [rex; VDict [("name", VStr "Rex"); ("species", VStr "Wolf")]] ]};
     next_oid := 1 |}.

Definition with_credentials : MongoConfig :=
  {| username := "aacuser"; password := "secret"; host := "localhost";
     port := 27017; authSource := "aac"; tls := false; replicaSet := Some "rs0" |}.

(** ** Exceptions raised by the class *)

Definition not_initialized : exn :=
  Exn RuntimeError "[MongoDB] Collection is not initialized." None.

(** The exception [_connect] raises in place of the driver's [e]. *)
Definition connection_failed (e : exn) : exn :=
  Exn RuntimeError ("[MongoDB] Connection failed: " +:+ str e) (Some e).

(** ** Outcomes of a call *)

(** What an [except errors.PyMongoError] clause that prints and returns a
    sentinel makes of an exception [e] raised in world [w]. *)
Definition soft_failure {D A} (tag : string) (sentinel : A) (e : exn)
    (w : world D) : outcome A * world D :=
  if isinstance_PyMongoError e
  then (Ok sentinel,
        Build_world D (self w) (server w) (stdout w ++ [tag +:+ str e]) (calls w))
  else (Raise e, w).

(** The world after one driver call that left the driver in state [s']. *)
Definition called {D} (w : world D) (c : call D) (s' : Server D) : world D :=
  Build_world D (self w) s' (stdout w) (calls w ++ [c]).

Definition drv_update (D : Driver) (many : bool) :=
  if many then drv_update_many D else drv_update_one D.

Definition drv_delete (D : Driver) (many : bool) :=
  if many then drv_delete_many D else drv_delete_one D.

Definition CallUpdate (D : Driver) (many : bool) :=
  if many then CallUpdateMany D else CallUpdateOne D.

Definition CallDelete (D : Driver) (many : bool) :=
  if many then CallDeleteMany D else CallDeleteOne D.

(** What [update] and [delete] return for what the driver answered, [o]
    being the outcome of the call and [count] the reading of the count of
    its result. *)
Definition count_or_0 {R} (count : R -> outcome (option Z)) (o : outcome R)
    : outcome Z :=
  match o with
  | Ok r =>
      match count r with
      | Ok (Some k) => Ok k
      | Ok None => Ok 0
      | Raise e => if isinstance_PyMongoError e then Ok 0 else Raise e
      end
  | Raise e => if isinstance_PyMongoError e then Ok 0 else Raise e
  end.

(** The lines the [except] clause tagged [tag] prints for the outcome [o]
    of the body of a [try]. *)
Definition error_lines {A} (tag : string) (o : outcome A) : list string :=
  match o with
  | Raise e => if isinstance_PyMongoError e then [tag +:+ str e] else []
  | Ok _ => []
  end.

(** The outcome of [k] on the value of [o], when [o] has one. *)
Definition and_then {A B} (o : outcome A) (k : A -> outcome B) : outcome B :=
  match o with
  | Ok a => k a
  | Raise e => Raise e
  end.

(** A driver as old servers make it: the write is done, the result carries
    no count. *)
Definition without_counts (D : Driver) : Driver := {|
  Server := Server D;
  Client := Client D;
  Database := Database D;
  Coll := Coll D;
  Cursor := Cursor D;
  drv_MongoClient := drv_MongoClient D;
  drv_ping := drv_ping D;
  drv_client_getitem := drv_client_getitem D;
  drv_database_getitem := drv_database_getitem D;
  drv_insert_one := drv_insert_one D;
  drv_find := drv_find D;
  drv_list := drv_list D;
  drv_update_one := fun c q u s =>
    let '(o, s') := drv_update_one D c q u s in
    (match o with Ok _ => Ok {| modified_count := Ok None |} | Raise e => Raise e end, s');
  drv_update_many := fun c q u s =>
    let '(o, s') := drv_update_many D c q u s in
    (match o with Ok _ => Ok {| modified_count := Ok None |} | Raise e => Raise e end, s');
  drv_delete_one := fun c q s =>
    let '(o, s') := drv_delete_one D c q s in
    (match o with Ok _ => Ok {| deleted_count := Ok None |} | Raise e => Raise e end, s');
  drv_delete_many := fun c q s =>
    let '(o, s') := drv_delete_many D c q s in
    (match o with Ok _ => Ok {| deleted_count := Ok None |} | Raise e => Raise e end, s')
|}.

(** A driver whose results all report the count [k]. *)
Definition miscounting (D : Driver) (k : Z) : Driver := {|
  Server := Server D;
  Client := Client D;
  Database := Database D;
  Coll := Coll D;
  Cursor := Cursor D;
  drv_MongoClient := drv_MongoClient D;
  drv_ping := drv_ping D;
  drv_client_getitem := drv_client_getitem D;
  drv_database_getitem := drv_database_getitem D;
  drv_insert_one := drv_insert_one D;
  drv_find := drv_find D;
  drv_list := drv_list D;
  drv_update_one := fun c q u s =>
    let '(o, s') := drv_update_one D c q u s in
    (match o with Ok _ => Ok {| modified_count := Ok (Some k) |} | Raise e => Raise e end, s');
  drv_update_many := fun c q u s =>
    let '(o, s') := drv_update_many D c q u s in
    (match o with Ok _ => Ok {| modified_count := Ok (Some k) |} | Raise e => Raise e end, s');
  drv_delete_one := fun c q s =>
    let '(o, s') := drv_delete_one D c q s in
    (match o with Ok _ => Ok {| deleted_count := Ok (Some k) |} | Raise e => Raise e end, s');
  drv_delete_many := fun c q s =>
    let '(o, s') := drv_delete_many D c q s in
    (match o with Ok _ => Ok {| deleted_count := Ok (Some k) |} | Raise e => Raise e end, s')
|}.

Definition legacy_world : world (without_counts Mongo) :=
  Build_world (without_counts Mongo)
    (Build_CRUD (without_counts Mongo) (Some tt) (Some animals) "aac" "animals")
    one_dog [] [].

(** Two calls of [delete] in a row with the same arguments: the value of
    the first and the value of the second. *)
Definition delete_twice (D : Driver) (query : value) (many : bool) (w : world D)
    : outcome Z * outcome Z :=
  let first := delete D query many w in
  (fst first, fst (delete D query many (snd first))).

(** The first call returns a count other than 0 and the second returns 0. *)
Definition nonzero_then_zero (r : outcome Z * outcome Z) : Prop :=
  (exists n, fst r = Ok n /\ n <> 0) /\ snd r = Ok 0.

(** ** Sequences of calls *)

(** One call made by the user of an instance. *)
Inductive request : Type :=
| Create (document : value)
| Read (query : value)
| Update (query new_values : value) (many : bool)
| Delete (query : value) (many : bool).

(** The world after a call, whether it returned or raised. *)
Definition perform (D : Driver) (r : request) (w : world D) : world D :=
  match r with
  | Create document => snd (create D document w)
  | Read query => snd (read D query w)
  | Update query new_values many => snd (update D query new_values many w)
  | Delete query many => snd (delete D query many w)
  end.

Definition perform_all (D : Driver) (rs : list request) (w : world D) : world D :=
  fold_left (fun w r => perform D r w) rs w.

(** ** Outcomes of the constructor *)

(** What the [except errors.PyMongoError] clause of [_connect] makes of an
    exception [e] raised in world [w]. *)
Definition connect_failure {D A} (e : exn) (w : world D) : outcome A * world D :=
  if isinstance_PyMongoError e then (Raise (connection_failed e), w)
  else (Raise e, w).

(** ** A driver that fails *)

(** A driver every call of which raises [e]. *)
Definition Broken (e : exn) : Driver := {|
  Server := unit;
  Client := unit;
  Database := unit;
  Coll := unit;
  Cursor := unit;
  drv_MongoClient := fun _ s => (Raise e, s);
  drv_ping := fun _ s => (Raise e, s);
  drv_client_getitem := fun _ _ s => (Raise e, s);
  drv_database_getitem := fun _ _ s => (Raise e, s);
  drv_insert_one := fun _ _ s => (Raise e, s);
  drv_find := fun _ _ s => (Raise e, s);
  drv_list := fun _ s => (Raise e, s);
  drv_update_one := fun _ _ _ s => (Raise e, s);
  drv_update_many := fun _ _ _ s => (Raise e, s);
  drv_delete_one := fun _ _ s => (Raise e, s);
  drv_delete_many := fun _ _ s => (Raise e, s)
|}.

(** An instance bound to a collection of such a driver. *)
Definition broken_world (e : exn) : world (Broken e) :=
  Build_world (Broken e) (Build_CRUD (Broken e) (Some tt) (Some tt) "aac" "animals")
    tt [] [].

(** A configuration whose host carries a port out of range, and the
    exception the parsing of that host raises in [MongoClient]: a
    [ValueError], outside the classes of [pymongo.errors]. *)
Definition port_out_of_range : MongoConfig :=
  {| username := ""; password := ""; host := "localhost:99999"; port := 27017;
     authSource := "aac"; tls := false; replicaSet := None |}.

Definition bad_port : exn :=
  Exn ValueError "Port must be an integer between 0 and 65535: '99999'" None.

(** An exception of [bson], outside the classes of [pymongo.errors]. *)
Definition invalid_document : exn :=
  Exn (OtherError "InvalidDocument") "cannot encode object" None.

(** ** Induction on values, through the lists they hold *)

Section value_induction.

Variable P : value -> Prop.
Hypothesis P_None : P VNone.
Hypothesis P_Bool : forall b, P (VBool b).
Hypothesis P_Int : forall n, P (VInt n).
Hypothesis P_Str : forall s, P (VStr s).
Hypothesis P_ObjectId : forall n, P (VObjectId n).
Hypothesis P_List : forall items, Forall P items -> P (VList items).
Hypothesis P_Dict :
  forall fields, Forall (fun kv => P (snd kv)) fields -> P (VDict fields).

Fixpoint value_nested_ind (v : value) : P v :=
  match v with
  | VNone => P_None
  | VBool b => P_Bool b
  | VInt n => P_Int n
  | VStr s => P_Str s
  | VObjectId n => P_ObjectId n
  | VList items =>
      P_List items
        ((fix all (l : list value) : Forall P l :=
            match l with
            | [] => List.Forall_nil P
            | x :: l' => List.Forall_cons P x l' (value_nested_ind x) (all l')
            end) items)
  | VDict fields =>
      P_Dict fields
        ((fix all (l : list (string * value)) : Forall (fun kv => P (snd kv)) l :=
            match l with
            | [] => List.Forall_nil _
            | kv :: l' => List.Forall_cons _ kv l' (value_nested_ind (snd kv)) (all l')
            end) fields)
  end.

End value_induction.

(** * Properties *)

(** Unfold a method down to the driver calls it makes. *)
Ltac step_method :=
  unfold create, read, update, delete, _ensure_collection, try_except, bind,
    get_self, insert_one, find, list_, update_one, update_many, delete_one,
    delete_many, invoke, property, print, ret, raise;
  cbn beta iota.

(** ** create *)

Lemma create_on_result D (w : world D) c fields r s' :
  _collection (self w) = Some c ->
  drv_insert_one D c (VDict fields) (server w) = (Ok r, s') ->
  create D (VDict fields) w =
    (Ok (acknowledged r && is_not_None (inserted_id r)),
     Build_world D (self w) s' (stdout w)
       (calls w ++ [CallInsertOne D c (VDict fields)])).
Proof.
  intros Hc Hd. step_method. cbn. rewrite Hc, Hd. reflexivity.
Qed.

Lemma create_on_raise D (w : world D) c fields e s' :
  _collection (self w) = Some c ->
  drv_insert_one D c (VDict fields) (server w) = (Raise e, s') ->
  create D (VDict fields) w =
    if isinstance_PyMongoError e
    then (Ok false,
          Build_world D (self w) s'
            (stdout w ++ ["[MongoDB][CREATE] Error: " +:+ str e])
            (calls w ++ [CallInsertOne D c (VDict fields)]))
    else (Raise e,
          Build_world D (self w) s' (stdout w)
            (calls w ++ [CallInsertOne D c (VDict fields)])).
Proof.
  intros Hc Hd. step_method. cbn. rewrite Hc, Hd.
  destruct (isinstance_PyMongoError e); reflexivity.
Qed.

Lemma is_not_None_true v : is_not_None v = true <-> v <> VNone.
Proof. destruct v; cbn; split; intros; congruence. Qed.

(** C1.  On a mapping document, [create] returns [True] exactly when the
    driver's [insert_one] returned a result that is acknowledged and
    carries an inserted id other than [None]; when [insert_one] raises a
    [PyMongoError] (or a subclass), [create] prints the error and returns
    [False], nothing is propagated. *)
Theorem create_true_iff_acknowledged_and_id :
  forall (D : Driver) (w : world D) (c : Coll D) (fields : list (string * value)),
    _collection (self w) = Some c ->
    (fst (create D (VDict fields) w) = Ok true <->
       exists r s',
         drv_insert_one D c (VDict fields) (server w) = (Ok r, s') /\
         acknowledged r = true /\ inserted_id r <> VNone) /\
    (forall e s',
       drv_insert_one D c (VDict fields) (server w) = (Raise e, s') ->
       isinstance_PyMongoError e = true ->
       create D (VDict fields) w =
         (Ok false,
          Build_world D (self w) s'
            (stdout w ++ ["[MongoDB][CREATE] Error: " +:+ str e])
            (calls w ++ [CallInsertOne D c (VDict fields)]))).
Proof.
  intros D w c fields Hc. split.
  - destruct (drv_insert_one D c (VDict fields) (server w)) as [[r|e] s'] eqn:Hd.
    + rewrite (create_on_result D w c fields r s' Hc Hd). cbn [fst]. split.
      * intros H. injection H as H. apply andb_true_iff in H as [Ha Hi].
        exists r, s'. repeat split; [exact Ha | now apply is_not_None_true].
      * intros (r' & s'' & Heq & Ha & Hi). injection Heq as -> _.
        f_equal. apply andb_true_iff. split; [exact Ha | now apply is_not_None_true].
    + rewrite (create_on_raise D w c fields e s' Hc Hd). split.
      * destruct (isinstance_PyMongoError e); cbn [fst]; intros H; discriminate H.
      * intros (r' & s'' & Heq & _). discriminate Heq.
  - intros e s' Hd He. rewrite (create_on_raise D w c fields e s' Hc Hd), He.
    reflexivity.
Qed.

Lemma create_true_iff_acknowledged_and_id_witness :
  _collection (self (connected empty_server)) = Some animals /\
  exists r s',
    drv_insert_one Mongo animals rex (server (connected empty_server)) = (Ok r, s') /\
    acknowledged r = true /\ inserted_id r <> VNone.
Proof.
  split; [reflexivity |].
  apply (proj1 (proj1 (create_true_iff_acknowledged_and_id Mongo
           (connected empty_server) animals
           [("name", VStr "Rex"); ("species", VStr "Dog")] eq_refl))).
  vm_compute. reflexivity.
Defined.

(** ** Arguments that are not mappings *)

Lemma not_dict_cases v :
  isinstance_dict v = false -> negb (isinstance_dict v) = true.
Proof. intros ->. reflexivity. Qed.

(** C2.  When the document, query or update spec is not a [dict], each of
    the four methods raises a [ValueError] to its caller: the [except]
    clause does not catch it, so no sentinel is returned, and the world is
    left as it was (no driver call, nothing printed). *)
Theorem non_mapping_argument_raises_ValueError :
  forall (D : Driver) (w : world D) (v : value),
    isinstance_dict v = false ->
    (exists e, is_ValueError e = true /\ create D v w = (Raise e, w)) /\
    (exists e, is_ValueError e = true /\ read D v w = (Raise e, w)) /\
    (forall other many,
       exists e, is_ValueError e = true /\ update D v other many w = (Raise e, w)) /\
    (forall other many,
       exists e, is_ValueError e = true /\ update D other v many w = (Raise e, w)) /\
    (forall many,
       exists e, is_ValueError e = true /\ delete D v many w = (Raise e, w)).
Proof.
  intros D w v Hv. pose proof (not_dict_cases v Hv) as Hn.
  repeat split.
  - eexists. split; [| step_method; rewrite Hn; cbn; reflexivity]. reflexivity.
  - eexists. split; [| step_method; rewrite Hn; cbn; reflexivity]. reflexivity.
  - intros other many. eexists.
    split; [| step_method; rewrite Hn; cbn; reflexivity]. reflexivity.
  - intros other many. destruct (isinstance_dict other) eqn:Ho.
    + eexists. split; [| step_method; rewrite Ho, Hn; cbn; reflexivity]. reflexivity.
    + eexists. split; [| step_method; rewrite Ho; cbn; reflexivity]. reflexivity.
  - intros many. eexists.
    split; [| step_method; rewrite Hn; cbn; reflexivity]. reflexivity.
Qed.

Lemma non_mapping_argument_raises_ValueError_witness :
  isinstance_dict (VStr "Rex") = false /\
  exists e, is_ValueError e = true /\
            create Mongo (VStr "Rex") (connected empty_server)
              = (Raise e, connected empty_server).
Proof.
  split; [reflexivity |].
  exact (proj1 (non_mapping_argument_raises_ValueError Mongo
                  (connected empty_server) (VStr "Rex") eq_refl)).
Defined.

(** ** An instance whose collection is not bound *)

(** C9.  With [_collection] equal to [None], each of the four methods,
    called on mappings, raises the [RuntimeError] of [_ensure_collection]
    to its caller: that exception is not a [PyMongoError], the [except]
    clause lets it through, and no sentinel is returned.  The world is left
    as it was. *)
Theorem unbound_collection_raises_RuntimeError :
  forall (D : Driver) (w : world D) (fields spec : list (string * value))
         (many : bool),
    _collection (self w) = None ->
    is_RuntimeError not_initialized = true /\
    isinstance_PyMongoError not_initialized = false /\
    create D (VDict fields) w = (Raise not_initialized, w) /\
    read D (VDict fields) w = (Raise not_initialized, w) /\
    update D (VDict fields) (VDict spec) many w = (Raise not_initialized, w) /\
    delete D (VDict fields) many w = (Raise not_initialized, w).
Proof.
  intros D w fields spec many Hc.
  repeat split; step_method; cbn; rewrite Hc; reflexivity.
Qed.

Lemma unbound_collection_raises_RuntimeError_witness :
  _collection (self (blank empty_server)) = None /\
  create Mongo rex (blank empty_server) = (Raise not_initialized, blank empty_server).
Proof.
  split; [reflexivity |].
  exact (proj1 (proj2 (proj2 (unbound_collection_raises_RuntimeError Mongo
                  (blank empty_server)
                  [("name", VStr "Rex"); ("species", VStr "Dog")] [] false
                  eq_refl)))).
Defined.

(** ** read *)

Lemma read_on_documents D (w : world D) c fields cur s1 docs s2 :
  _collection (self w) = Some c ->
  drv_find D c (VDict fields) (server w) = (Ok cur, s1) ->
  drv_list D cur s1 = (Ok docs, s2) ->
  read D (VDict fields) w =
    (Ok docs,
     Build_world D (self w) s2 (stdout w)
       (calls w ++ [CallFind D c (VDict fields); CallList D cur])).
Proof.
  intros Hc Hf Hl. step_method. cbn. rewrite Hc, Hf. cbn. rewrite Hl.
  rewrite <- app_assoc. reflexivity.
Qed.

Lemma read_on_find_error D (w : world D) c fields e s1 :
  _collection (self w) = Some c ->
  drv_find D c (VDict fields) (server w) = (Raise e, s1) ->
  isinstance_PyMongoError e = true ->
  read D (VDict fields) w =
    (Ok [],
     Build_world D (self w) s1
       (stdout w ++ ["[MongoDB][READ] Error: " +:+ str e])
       (calls w ++ [CallFind D c (VDict fields)])).
Proof.
  intros Hc Hf He. step_method. cbn. rewrite Hc, Hf, He. reflexivity.
Qed.

Lemma read_on_cursor_error D (w : world D) c fields cur s1 e s2 :
  _collection (self w) = Some c ->
  drv_find D c (VDict fields) (server w) = (Ok cur, s1) ->
  drv_list D cur s1 = (Raise e, s2) ->
  isinstance_PyMongoError e = true ->
  read D (VDict fields) w =
    (Ok [],
     Build_world D (self w) s2
       (stdout w ++ ["[MongoDB][READ] Error: " +:+ str e])
       (calls w ++ [CallFind D c (VDict fields); CallList D cur])).
Proof.
  intros Hc Hf Hl He. step_method. cbn. rewrite Hc, Hf. cbn. rewrite Hl, He.
  rewrite <- app_assoc. reflexivity.
Qed.

Lemma filter_none {A} (p : A -> bool) (l : list A) :
  (forall x, In x l -> p x = false) -> List.filter p l = [].
Proof.
  induction l as [|x l IH]; intros H; [reflexivity |].
  cbn. rewrite (H x (or_introl eq_refl)). apply IH.
  intros y Hy. apply H. now right.
Qed.

(** C3.  On a mapping query, [read] returns the very list that
    materialising the driver's cursor for [find(query)] on the bound
    collection gives; on the reference deployment that is the list of all
    stored records that match, in stored order, and the empty list when
    none matches.  When [find] or the materialisation raises a
    [PyMongoError], [read] returns the empty list. *)
Theorem read_returns_all_matching_documents :
  (forall (D : Driver) (w : world D) (c : Coll D) (fields : list (string * value)),
     _collection (self w) = Some c ->
     (forall cur s1 docs s2,
        drv_find D c (VDict fields) (server w) = (Ok cur, s1) ->
        drv_list D cur s1 = (Ok docs, s2) ->
        fst (read D (VDict fields) w) = Ok docs) /\
     (forall e s1,
        drv_find D c (VDict fields) (server w) = (Raise e, s1) ->
        isinstance_PyMongoError e = true ->
        fst (read D (VDict fields) w) = Ok []) /\
     (forall cur s1 e s2,
        drv_find D c (VDict fields) (server w) = (Ok cur, s1) ->
        drv_list D cur s1 = (Raise e, s2) ->
        isinstance_PyMongoError e = true ->
        fst (read D (VDict fields) w) = Ok [])) /\
  (forall (matches : value -> value -> bool) (apply_update : value -> value -> value)
          (w : world (MemDriver matches apply_update)) (c : string * string)
          (fields : list (string * value)),
     _collection (self w) = Some c ->
     (reachable (server w) = true ->
        fst (read (MemDriver matches apply_update) (VDict fields) w)
          = Ok (List.filter (matches (VDict fields)) (contents (server w) c)) /\
        ((forall d, In d (contents (server w) c) -> matches (VDict fields) d = false) ->
         fst (read (MemDriver matches apply_update) (VDict fields) w) = Ok [])) /\
     (reachable (server w) = false ->
        fst (read (MemDriver matches apply_update) (VDict fields) w) = Ok [])).
Proof.
  split.
  - intros D w c fields Hc. repeat split.
    + intros cur s1 docs s2 Hf Hl.
      now rewrite (read_on_documents D w c fields cur s1 docs s2 Hc Hf Hl).
    + intros e s1 Hf He.
      now rewrite (read_on_find_error D w c fields e s1 Hc Hf He).
    + intros cur s1 e s2 Hf Hl He.
      now rewrite (read_on_cursor_error D w c fields cur s1 e s2 Hc Hf Hl He).
  - intros matches apply_update w c fields Hc. split.
    + intros Hr.
      assert (Hread : fst (read (MemDriver matches apply_update) (VDict fields) w)
                = Ok (List.filter (matches (VDict fields)) (contents (server w) c))).
      { erewrite read_on_documents; [reflexivity | exact Hc | reflexivity |].
        cbn. unfold online. rewrite Hr. reflexivity. }
      split; [exact Hread |].
      intros Hnone. rewrite Hread. f_equal. now apply filter_none.
    + intros Hr.
      erewrite read_on_cursor_error; [reflexivity | exact Hc | reflexivity | | ].
      * cbn. unfold online. rewrite Hr. reflexivity.
      * reflexivity.
Qed.

Lemma read_returns_all_matching_documents_witness :
  _collection (self (connected one_dog)) = Some animals /\
  reachable (server (connected one_dog)) = true /\
  fst (read Mongo (VDict [("name", VStr "Rex")]) (connected one_dog))
    = Ok (List.filter (eq_match (VDict [("name", VStr "Rex")]))
            (contents (server (connected one_dog)) animals)).
Proof.
  split; [reflexivity |]. split; [reflexivity |].
  exact (proj1 (proj1 (proj2 read_returns_all_matching_documents
                  eq_match set_update (connected one_dog) animals
                  [("name", VStr "Rex")] eq_refl) eq_refl)).
Defined.

(** ** update and delete, on any driver *)

Lemma update_run D (w : world D) c fq fs many :
  _collection (self w) = Some c ->
  update D (VDict fq) (VDict fs) many w =
    let '(o, s') := drv_update D many c (VDict fq) (VDict fs) (server w) in
    let w' := called w (CallUpdate D many c (VDict fq) (VDict fs)) s' in
    match o with
    | Ok r =>
        match modified_count r with
        | Ok n => (Ok (int_or_0 n), w')
        | Raise e => soft_failure "[MongoDB][UPDATE] Error: " 0 e w'
        end
    | Raise e => soft_failure "[MongoDB][UPDATE] Error: " 0 e w'
    end.
Proof.
  intros Hc. step_method. cbn. rewrite Hc. unfold soft_failure, called.
  destruct many; cbn;
    match goal with |- context [?f c (VDict fq) (VDict fs) (server w)] =>
      destruct (f c (VDict fq) (VDict fs) (server w)) as [[r|e] s'] end;
    cbn; try destruct (modified_count r) as [n|e]; cbn;
    try destruct (isinstance_PyMongoError e); reflexivity.
Qed.

Lemma delete_run D (w : world D) c fq many :
  _collection (self w) = Some c ->
  delete D (VDict fq) many w =
    let '(o, s') := drv_delete D many c (VDict fq) (server w) in
    let w' := called w (CallDelete D many c (VDict fq)) s' in
    match o with
    | Ok r =>
        match deleted_count r with
        | Ok n => (Ok (int_or_0 n), w')
        | Raise e => soft_failure "[MongoDB][DELETE] Error: " 0 e w'
        end
    | Raise e => soft_failure "[MongoDB][DELETE] Error: " 0 e w'
    end.
Proof.
  intros Hc. step_method. cbn. rewrite Hc. unfold soft_failure, called.
  destruct many; cbn;
    match goal with |- context [?f c (VDict fq) (server w)] =>
      destruct (f c (VDict fq) (server w)) as [[r|e] s'] end;
    cbn; try destruct (deleted_count r) as [n|e]; cbn;
    try destruct (isinstance_PyMongoError e); reflexivity.
Qed.

Lemma int_or_0_Some k : int_or_0 (Some k) = k.
Proof. cbn. destruct (Z.eqb_spec k 0); congruence. Qed.

Lemma int_or_0_nonneg n :
  (forall k, n = Some k -> 0 <= k) -> 0 <= int_or_0 n.
Proof.
  destruct n as [k|]; intros H; [| cbn; lia].
  rewrite int_or_0_Some. now apply H.
Qed.

(** C10 does not hold as stated.  On the reference deployment an update
    spec that is a mapping of plain fields makes [update] raise the
    driver's [ValueError], so no integer is returned; and a count the
    driver reports is returned as it is, whatever its sign. *)
Lemma update_delete_nonnegative_counterexample :
  fst (update Mongo (VDict [("name", VStr "Rex")])
         (VDict [("species", VStr "Canine")]) false (connected one_dog))
    = Raise not_an_operator_update /\
  (forall z,
     fst (update Mongo (VDict [("name", VStr "Rex")])
            (VDict [("species", VStr "Canine")]) false (connected one_dog))
     <> Ok z) /\
  fst (delete (miscounting Mongo (-3)) (VDict [("name", VStr "Rex")]) false
         (Build_world (miscounting Mongo (-3))
            (Build_CRUD (miscounting Mongo (-3)) (Some tt) (Some animals)
               "aac" "animals") one_dog [] []))
    = Ok (-3) /\
  ~ 0 <= -3.
Proof.
  assert (H : fst (update Mongo (VDict [("name", VStr "Rex")])
                     (VDict [("species", VStr "Canine")]) false (connected one_dog))
              = Raise not_an_operator_update) by (vm_compute; reflexivity).
  split; [exact H |]. split; [| split].
  - intros z Hz. rewrite H in Hz. discriminate Hz.
  - vm_compute. reflexivity.
  - lia.
Qed.

(** C10, amended.  On mappings, with the collection bound, [update] and
    [delete] return the count of the driver's result as it is when it is
    an integer, and 0 when it is [None] or when the call or the reading of
    the count raises a [PyMongoError]: a count that is [None] is neither
    returned as [None] nor turned into an exception.  An exception of
    another class is raised to the caller, and no integer is returned.  So
    a value below 0 can only be the count the driver reported. *)
Theorem update_delete_return_the_count_or_0 :
  forall (D : Driver) (w : world D) (c : Coll D)
         (fq fs : list (string * value)) (many : bool),
    _collection (self w) = Some c ->
    let answered := fst (drv_update D many c (VDict fq) (VDict fs) (server w)) in
    let answered' := fst (drv_delete D many c (VDict fq) (server w)) in
    fst (update D (VDict fq) (VDict fs) many w)
      = count_or_0 modified_count answered /\
    fst (delete D (VDict fq) many w) = count_or_0 deleted_count answered' /\
    (forall r, answered = Ok r -> modified_count r = Ok None ->
       fst (update D (VDict fq) (VDict fs) many w) = Ok 0) /\
    (forall r, answered' = Ok r -> deleted_count r = Ok None ->
       fst (delete D (VDict fq) many w) = Ok 0) /\
    (forall z, fst (update D (VDict fq) (VDict fs) many w) = Ok z -> z < 0 ->
       exists r, answered = Ok r /\ modified_count r = Ok (Some z)) /\
    (forall z, fst (delete D (VDict fq) many w) = Ok z -> z < 0 ->
       exists r, answered' = Ok r /\ deleted_count r = Ok (Some z)).
Proof.
  intros D w c fq fs many Hc answered answered'.
  assert (Hu : fst (update D (VDict fq) (VDict fs) many w)
               = count_or_0 modified_count answered).
  { subst answered. rewrite (update_run D w c fq fs many Hc).
    unfold count_or_0, soft_failure.
    destruct (drv_update D many c (VDict fq) (VDict fs) (server w)) as [[r|e] s'];
      cbn [fst].
    - destruct (modified_count r) as [[k|]|e]; cbn [fst].
      + now rewrite int_or_0_Some.
      + reflexivity.
      + destruct (isinstance_PyMongoError e); reflexivity.
    - destruct (isinstance_PyMongoError e); reflexivity. }
  assert (Hd : fst (delete D (VDict fq) many w)
               = count_or_0 deleted_count answered').
  { subst answered'. rewrite (delete_run D w c fq many Hc).
    unfold count_or_0, soft_failure.
    destruct (drv_delete D many c (VDict fq) (server w)) as [[r|e] s']; cbn [fst].
    - destruct (deleted_count r) as [[k|]|e]; cbn [fst].
      + now rewrite int_or_0_Some.
      + reflexivity.
      + destruct (isinstance_PyMongoError e); reflexivity.
    - destruct (isinstance_PyMongoError e); reflexivity. }
  rewrite Hu, Hd. clear Hu Hd. unfold count_or_0.
  split; [reflexivity |]. split; [reflexivity |].
  split; [| split; [| split]].
  - intros r -> ->. reflexivity.
  - intros r -> ->. reflexivity.
  - intros z Hz Hneg. destruct answered as [r|e].
    + destruct (modified_count r) as [[k|]|e] eqn:Hcount.
      * injection Hz as ->. eauto.
      * injection Hz as <-. lia.
      * destruct (isinstance_PyMongoError e); [injection Hz as <-; lia | discriminate Hz].
    + destruct (isinstance_PyMongoError e); [injection Hz as <-; lia | discriminate Hz].
  - intros z Hz Hneg. destruct answered' as [r|e].
    + destruct (deleted_count r) as [[k|]|e] eqn:Hcount.
      * injection Hz as ->. eauto.
      * injection Hz as <-. lia.
      * destruct (isinstance_PyMongoError e); [injection Hz as <-; lia | discriminate Hz].
    + destruct (isinstance_PyMongoError e); [injection Hz as <-; lia | discriminate Hz].
Qed.

Lemma update_delete_return_the_count_or_0_witness :
  _collection (self legacy_world) = Some animals /\
  fst (update (without_counts Mongo) (VDict [("name", VStr "Rex")])
         (VDict [("$set", VDict [("species", VStr "Canine")])]) false legacy_world)
    = Ok 0.
Proof.
  split; [reflexivity |].
  eapply (proj1 (proj2 (proj2 (update_delete_return_the_count_or_0
            (without_counts Mongo) legacy_world animals [("name", VStr "Rex")]
            [("$set", VDict [("species", VStr "Canine")])] false eq_refl)))).
  - vm_compute. reflexivity.
  - reflexivity.
Defined.

(** ** Equality of values *)

Lemma value_eqb_eq (a b : value) : value_eqb a b = true <-> a = b.
Proof.
  revert b. induction a as [| x | x | x | x | items IH | fields IH]
    using value_nested_ind; intros v.
  - destruct v; cbn; split; congruence.
  - destruct v as [| y | | | | |]; cbn; try (split; congruence).
    rewrite Bool.eqb_true_iff. split; congruence.
  - destruct v as [| | y | | | |]; cbn; try (split; congruence).
    rewrite Z.eqb_eq. split; congruence.
  - destruct v as [| | | y | | |]; cbn; try (split; congruence).
    rewrite String.eqb_eq. split; congruence.
  - destruct v as [| | | | y | |]; cbn; try (split; congruence).
    rewrite Z.eqb_eq. split; congruence.
  - destruct v as [| | | | | ys |]; try (cbn; split; congruence).
    cbn [value_eqb].
    match goal with |- ?g items ys = true <-> _ => set (go := g) end.
    assert (Hgo : forall ys, go items ys = true <-> items = ys).
    { clear ys. induction IH as [|x xs Hx _ IHxs]; intros [|y ys]; cbn;
        try (split; congruence).
      rewrite andb_true_iff, Hx, IHxs.
      split; [intros [-> ->] | intros [= -> ->]]; auto. }
    rewrite Hgo. split; congruence.
  - destruct v as [| | | | | | ys]; try (cbn; split; congruence).
    cbn [value_eqb].
    match goal with |- ?g fields ys = true <-> _ => set (go := g) end.
    assert (Hgo : forall ys, go fields ys = true <-> fields = ys).
    { clear ys. induction IH as [|[k x] xs Hx _ IHxs]; intros [|[k' y] ys]; cbn;
        try (split; congruence).
      cbn in Hx. rewrite !andb_true_iff, String.eqb_eq, Hx, IHxs.
      split; [intros [[-> ->] ->] | intros [= -> -> ->]]; auto. }
    rewrite Hgo. split; congruence.
Qed.

Lemma value_eqb_refl (a : value) : value_eqb a a = true.
Proof. now apply value_eqb_eq. Qed.

Lemma value_eqb_neq (a b : value) : value_eqb a b = false <-> a <> b.
Proof.
  rewrite <- value_eqb_eq. destruct (value_eqb a b); split; congruence.
Qed.

(** ** The reference deployment *)

Section ReferenceFacts.

Variable matches : value -> value -> bool.
Variable apply_update : value -> value -> value.

Local Abbreviation Ref := (MemDriver matches apply_update).

Lemma contents_put s c docs : contents (put_contents s c docs) c = docs.
Proof. unfold contents, put_contents. cbn. now rewrite lookup_insert_eq. Qed.

Lemma contents_put_other s c c' docs :
  c <> c' -> contents (put_contents s c docs) c' = contents s c'.
Proof. intros Hne. unfold contents, put_contents. cbn. now rewrite lookup_insert_ne. Qed.

Lemma count_changed_refl l : count_changed l l = 0.
Proof.
  induction l as [|d l IH]; [reflexivity |].
  cbn. rewrite value_eqb_refl, IH. reflexivity.
Qed.

Lemma update_all_no_match query spec l :
  (forall d, In d l -> matches query d = false) ->
  update_all matches apply_update query spec l = l.
Proof.
  induction l as [|d l IH]; intros H; [reflexivity |].
  cbn. rewrite (H d (or_introl eq_refl)). f_equal. apply IH.
  intros x Hx. apply H. now right.
Qed.

Lemma count_changed_update_all query spec l :
  count_changed l (update_all matches apply_update query spec l) =
  Z.of_nat (length (List.filter
    (fun d => matches query d && negb (value_eqb d (apply_update spec d))) l)).
Proof.
  induction l as [|d l IH]; [reflexivity |].
  cbn [update_all map count_changed List.filter].
  fold (update_all matches apply_update query spec l). rewrite IH.
  destruct (matches query d); cbn [andb].
  - destruct (value_eqb d (apply_update spec d)); cbn [negb length]; lia.
  - rewrite value_eqb_refl. lia.
Qed.

(** [update_first] either finds no record and changes nothing, or rewrites
    the first record that matches and no other. *)
Lemma update_first_cases query spec l :
  ((forall d, In d l -> matches query d = false) /\
   update_first matches apply_update query spec l = l) \/
  (exists pre d post,
     l = (pre ++ d :: post)%list /\
     (forall x, In x pre -> matches query x = false) /\
     matches query d = true /\
     update_first matches apply_update query spec l
       = (pre ++ apply_update spec d :: post)%list /\
     count_changed l (update_first matches apply_update query spec l)
       = if value_eqb d (apply_update spec d) then 0 else 1).
Proof.
  induction l as [|d l IH].
  - left. split; [intros d [] | reflexivity].
  - cbn [update_first]. destruct (matches query d) eqn:Hd.
    + right. exists [], d, l. repeat split; try assumption.
      * intros x [].
      * cbn. rewrite count_changed_refl. lia.
    + destruct IH as [[Hno Heq] | (pre & x & post & Hl & Hpre & Hx & Hup & Hcount)].
      * left. split; [| now rewrite Heq].
        intros y [<- | Hy]; [exact Hd | now apply Hno].
      * right. exists (d :: pre), x, post. repeat split.
        -- cbn. now rewrite Hl.
        -- intros y [<- | Hy]; [exact Hd | now apply Hpre].
        -- exact Hx.
        -- cbn. now rewrite Hup.
        -- cbn [count_changed]. rewrite value_eqb_refl, Hcount. lia.
Qed.

Lemma count_matching_nonneg query l : 0 <= count_matching matches query l.
Proof. unfold count_matching. lia. Qed.

Lemma count_matching_cons query d l :
  count_matching matches query (d :: l) =
  (if matches query d then 1 else 0) + count_matching matches query l.
Proof.
  unfold count_matching. cbn. destruct (matches query d); cbn [length]; lia.
Qed.

Lemma count_matching_zero query l :
  count_matching matches query l = 0 <->
  (forall d, In d l -> matches query d = false).
Proof.
  induction l as [|d l IH].
  - split; [intros _ d [] | reflexivity].
  - rewrite count_matching_cons.
    pose proof (count_matching_nonneg query l) as Hn. split.
    + intros H x [<- | Hx].
      * destruct (matches query d); [lia | reflexivity].
      * apply IH; [| exact Hx]. destruct (matches query d); lia.
    + intros H. rewrite (H d (or_introl eq_refl)).
      rewrite (proj2 IH); [lia |]. intros x Hx. apply H. now right.
Qed.

Lemma removed_by_delete_all query l :
  Z.of_nat (length l) - Z.of_nat (length (delete_all matches query l))
  = count_matching matches query l.
Proof.
  induction l as [|d l IH]; [reflexivity |].
  rewrite count_matching_cons. unfold delete_all in *. cbn [List.filter].
  destruct (matches query d); cbn [negb length]; lia.
Qed.

Lemma count_matching_delete_all query l :
  count_matching matches query (delete_all matches query l) = 0.
Proof.
  apply count_matching_zero. intros d Hd.
  unfold delete_all in Hd. apply filter_In in Hd as [_ Hd].
  now destruct (matches query d).
Qed.

Lemma removed_by_delete_first query l :
  Z.of_nat (length l) - Z.of_nat (length (delete_first matches query l))
  = Z.min 1 (count_matching matches query l).
Proof.
  induction l as [|d l IH]; [reflexivity |].
  rewrite count_matching_cons. cbn [delete_first].
  pose proof (count_matching_nonneg query l) as Hn.
  destruct (matches query d); cbn [length]; lia.
Qed.

Lemma count_matching_delete_first query l :
  count_matching matches query (delete_first matches query l)
  = Z.max 0 (count_matching matches query l - 1).
Proof.
  induction l as [|d l IH]; [reflexivity |].
  cbn [delete_first]. pose proof (count_matching_nonneg query l) as Hn.
  destruct (matches query d) eqn:Hd.
  - rewrite count_matching_cons, Hd. lia.
  - rewrite !count_matching_cons, Hd, IH. lia.
Qed.

(** [update] and [delete] on a reachable reference deployment. *)
Lemma mem_update_run (w : world Ref) (c : string * string) fq fs (many : bool) :
  _collection (self w) = Some c ->
  update_spec_error (VDict fs) = None ->
  reachable (server w) = true ->
  let before := contents (server w) c in
  let after := if many then update_all matches apply_update (VDict fq) (VDict fs) before
               else update_first matches apply_update (VDict fq) (VDict fs) before in
  update Ref (VDict fq) (VDict fs) many w =
    (Ok (count_changed before after),
     called w (CallUpdate Ref many c (VDict fq) (VDict fs))
       (put_contents (server w) c after)).
Proof.
  intros Hc Hspec Hr before after. rewrite (update_run Ref w c fq fs many Hc).
  destruct many; cbn -[int_or_0 update_spec_error]; unfold mem_update, online;
    rewrite Hspec, Hr; cbn -[int_or_0]; rewrite int_or_0_Some; reflexivity.
Qed.

Lemma mem_update_rejected (w : world Ref) (c : string * string) fq fs
    (many : bool) e :
  _collection (self w) = Some c ->
  update_spec_error (VDict fs) = Some e ->
  isinstance_PyMongoError e = false ->
  update Ref (VDict fq) (VDict fs) many w =
    (Raise e, called w (CallUpdate Ref many c (VDict fq) (VDict fs)) (server w)).
Proof.
  intros Hc Hspec He. rewrite (update_run Ref w c fq fs many Hc).
  destruct many; cbn -[update_spec_error]; unfold mem_update;
    rewrite Hspec; unfold soft_failure; rewrite He; reflexivity.
Qed.

Lemma update_spec_error_class fs e :
  update_spec_error (VDict fs) = Some e ->
  is_ValueError e = true /\ isinstance_PyMongoError e = false.
Proof.
  destruct fs as [|[key v] fs]; cbn.
  - intros [= <-]. split; reflexivity.
  - destruct (is_operator key); [discriminate |].
    intros [= <-]. split; reflexivity.
Qed.

Lemma mem_delete_run (w : world Ref) (c : string * string) fq (many : bool) :
  _collection (self w) = Some c ->
  reachable (server w) = true ->
  let before := contents (server w) c in
  let after := if many then delete_all matches (VDict fq) before
               else delete_first matches (VDict fq) before in
  delete Ref (VDict fq) many w =
    (Ok (Z.of_nat (length before) - Z.of_nat (length after)),
     called w (CallDelete Ref many c (VDict fq))
       (put_contents (server w) c after)).
Proof.
  intros Hc Hr before after. rewrite (delete_run Ref w c fq many Hc).
  destruct many; cbn -[int_or_0 Z.sub Z.of_nat]; unfold mem_delete, online;
    rewrite Hr; cbn -[int_or_0 Z.sub Z.of_nat]; rewrite int_or_0_Some; reflexivity.
Qed.

End ReferenceFacts.

(** ** update *)

(** C4 does not hold as stated.  The arguments are mappings and no record
    matches, yet [update] does not return 0: the driver refuses an update
    spec that is empty or made of plain fields with a [ValueError], which
    the [except] clause does not catch. *)
Lemma update_plain_fields_counterexample :
  contents (server (connected empty_server)) animals = [] /\
  fst (update Mongo (VDict [("name", VStr "Rex")])
         (VDict [("species", VStr "Canine")]) false (connected empty_server))
    = Raise not_an_operator_update /\
  fst (update Mongo (VDict [("name", VStr "Rex")])
         (VDict [("species", VStr "Canine")]) true (connected empty_server))
    = Raise not_an_operator_update /\
  fst (update Mongo (VDict [("name", VStr "Rex")]) (VDict []) false
         (connected empty_server))
    = Raise empty_update /\
  Raise not_an_operator_update <> Ok 0 /\
  Raise empty_update <> Ok 0.
Proof.
  repeat split; try (vm_compute; reflexivity); discriminate.
Qed.

(** C4, amended.  On mappings, [update] issues [update_many] when [many]
    is true and [update_one] otherwise, and returns the modified count the
    driver reports; when the driver raises a [PyMongoError], in the call
    or in reading the count, it returns 0; when the driver raises an
    exception of another class, [update] raises it.  On the reference
    deployment an update spec that is empty or whose first key is not an
    operator is refused with a [ValueError], which [update] raises
    whatever the records.  For a spec that is accepted, with [many] true
    every matching record is rewritten and the value returned is the
    number of records the update changed; with [many] false the first
    matching record, if any, is rewritten and no other; when no record
    matches nothing is rewritten and 0 is returned, the value a driver
    failure gives as well. *)
Theorem update_modifies_matching_records :
  (forall (D : Driver) (w : world D) (c : Coll D)
          (fq fs : list (string * value)) (many : bool),
     _collection (self w) = Some c ->
     (forall r s' n,
        drv_update D many c (VDict fq) (VDict fs) (server w) = (Ok r, s') ->
        modified_count r = Ok n ->
        update D (VDict fq) (VDict fs) many w =
          (Ok (int_or_0 n),
           called w (CallUpdate D many c (VDict fq) (VDict fs)) s')) /\
     (forall e s',
        drv_update D many c (VDict fq) (VDict fs) (server w) = (Raise e, s') ->
        isinstance_PyMongoError e = true ->
        fst (update D (VDict fq) (VDict fs) many w) = Ok 0) /\
     (forall r s' e,
        drv_update D many c (VDict fq) (VDict fs) (server w) = (Ok r, s') ->
        modified_count r = Raise e ->
        isinstance_PyMongoError e = true ->
        fst (update D (VDict fq) (VDict fs) many w) = Ok 0) /\
     (forall e s',
        drv_update D many c (VDict fq) (VDict fs) (server w) = (Raise e, s') ->
        isinstance_PyMongoError e = false ->
        fst (update D (VDict fq) (VDict fs) many w) = Raise e)) /\
  (forall (matches : value -> value -> bool) (apply_update : value -> value -> value)
          (w : world (MemDriver matches apply_update)) (c : string * string)
          (fq fs : list (string * value)),
     _collection (self w) = Some c ->
     let run := update (MemDriver matches apply_update) (VDict fq) (VDict fs) in
     let before := contents (server w) c in
     (forall e many,
        update_spec_error (VDict fs) = Some e ->
        is_ValueError e = true /\
        fst (run many w) = Raise e /\
        server (snd (run many w)) = server w) /\
     (update_spec_error (VDict fs) = None ->
      reachable (server w) = true ->
      (contents (server (snd (run true w))) c
         = map (fun d => if matches (VDict fq) d then apply_update (VDict fs) d else d)
             before /\
       fst (run true w)
         = Ok (Z.of_nat (length (List.filter
                 (fun d => matches (VDict fq) d
                           && negb (value_eqb d (apply_update (VDict fs) d)))
                 before)))) /\
      (((forall d, In d before -> matches (VDict fq) d = false) /\
        contents (server (snd (run false w))) c = before /\
        fst (run false w) = Ok 0) \/
       (exists pre d post,
          before = (pre ++ d :: post)%list /\
          (forall x, In x pre -> matches (VDict fq) x = false) /\
          matches (VDict fq) d = true /\
          contents (server (snd (run false w))) c
            = (pre ++ apply_update (VDict fs) d :: post)%list /\
          fst (run false w)
            = Ok (if value_eqb d (apply_update (VDict fs) d) then 0 else 1))) /\
      (forall many,
         (forall d, In d before -> matches (VDict fq) d = false) ->
         fst (run many w) = Ok 0 /\
         contents (server (snd (run many w))) c = before))).
Proof.
  split.
  - intros D w c fq fs many Hc.
    rewrite (update_run D w c fq fs many Hc). repeat split.
    + intros r s' n -> ->. reflexivity.
    + intros e s' -> He. unfold soft_failure. rewrite He. reflexivity.
    + intros r s' e -> -> He. unfold soft_failure. rewrite He. reflexivity.
    + intros e s' -> He. unfold soft_failure. rewrite He. reflexivity.
  - intros matches apply_update w c fq fs Hc run before. subst run. split.
    { intros e many Hspec.
      destruct (update_spec_error_class fs e Hspec) as [Hval Hnot].
      rewrite (mem_update_rejected matches apply_update w c fq fs many e
                 Hc Hspec Hnot).
      repeat split; assumption || reflexivity. }
    intros Hspec Hr.
    pose proof (mem_update_run matches apply_update w c fq fs true Hc Hspec Hr)
      as Hmany.
    pose proof (mem_update_run matches apply_update w c fq fs false Hc Hspec Hr)
      as Hone.
    cbn zeta in Hmany, Hone. fold before in Hmany, Hone.
    split; [| split].
    + rewrite Hmany. cbn [fst snd called server]. rewrite contents_put.
      split; [reflexivity |]. now rewrite count_changed_update_all.
    + rewrite Hone. cbn [fst snd called server]. rewrite contents_put.
      destruct (update_first_cases matches apply_update (VDict fq) (VDict fs) before)
        as [[Hno Heq] | (pre & d & post & Hb & Hpre & Hd & Hup & Hcount)].
      * left. rewrite Heq, count_changed_refl. auto.
      * right. exists pre, d, post. rewrite Hcount. auto.
    + intros many Hno. destruct many.
      * rewrite Hmany. cbn [fst snd called server]. rewrite contents_put.
        rewrite update_all_no_match by exact Hno.
        now rewrite count_changed_refl.
      * rewrite Hone. cbn [fst snd called server]. rewrite contents_put.
        destruct (update_first_cases matches apply_update (VDict fq) (VDict fs) before)
          as [[_ Heq] | (pre & d & post & Hb & _ & Hd & _)].
        -- now rewrite Heq, count_changed_refl.
        -- rewrite Hno in Hd; [discriminate Hd |].
           rewrite Hb. apply in_or_app. right. now left.
Qed.

Lemma update_modifies_matching_records_witness :
  _collection (self (connected two_dogs)) = Some animals /\
  update_spec_error (VDict [("$set", VDict [("species", VStr "Canine")])]) = None /\
  reachable (server (connected two_dogs)) = true /\
  contents
    (server (snd (update Mongo (VDict [("name", VStr "Rex")])
                    (VDict [("$set", VDict [("species", VStr "Canine")])]) true
                    (connected two_dogs)))) animals
  = map (fun d => if eq_match (VDict [("name", VStr "Rex")]) d
                  then set_update (VDict [("$set", VDict [("species", VStr "Canine")])]) d
                  else d)
      (contents (server (connected two_dogs)) animals).
Proof.
  split; [reflexivity |]. split; [reflexivity |]. split; [reflexivity |].
  exact (proj1 (proj1 (proj2 (proj2 update_modifies_matching_records
                  eq_match set_update (connected two_dogs) animals
                  [("name", VStr "Rex")]
                  [("$set", VDict [("species", VStr "Canine")])]
                  eq_refl) eq_refl eq_refl))).
Defined.

(** ** delete *)

(** C7 does not hold as stated: on an empty collection the first call
    already returns 0, and with [many] false on two matching records the
    second call still returns 1. *)
Lemma delete_twice_counterexample :
  delete_twice Mongo (VDict [("name", VStr "Rex")]) false (connected empty_server)
    = (Ok 0, Ok 0) /\
  ~ nonzero_then_zero
      (delete_twice Mongo (VDict [("name", VStr "Rex")]) false
         (connected empty_server)) /\
  delete_twice Mongo (VDict [("name", VStr "Rex")]) false (connected two_dogs)
    = (Ok 1, Ok 1) /\
  ~ nonzero_then_zero
      (delete_twice Mongo (VDict [("name", VStr "Rex")]) false
         (connected two_dogs)).
Proof.
  assert (H0 : delete_twice Mongo (VDict [("name", VStr "Rex")]) false
                 (connected empty_server) = (Ok 0, Ok 0)) by (vm_compute; reflexivity).
  assert (H2 : delete_twice Mongo (VDict [("name", VStr "Rex")]) false
                 (connected two_dogs) = (Ok 1, Ok 1)) by (vm_compute; reflexivity).
  repeat split; try assumption.
  - rewrite H0. intros [(n & Hn & Hne) _]. cbn in Hn. congruence.
  - rewrite H2. intros [_ H]. cbn in H. discriminate H.
Qed.

(** C7, amended.  On a reachable reference deployment where [n] records
    match the query, the first [delete] returns [n] when [many] is true and
    [min 1 n] otherwise, and the second returns 0 when [many] is true and
    [min 1 (n - 1)] (0 when [n] is 0) otherwise.  So the first count is not
    0 exactly when a record matches, and, when one does, the second is 0
    exactly when [many] is true or a single record matched. *)
Theorem delete_twice_counts :
  forall (matches : value -> value -> bool) (apply_update : value -> value -> value)
         (w : world (MemDriver matches apply_update)) (c : string * string)
         (fq : list (string * value)) (many : bool),
    _collection (self w) = Some c ->
    reachable (server w) = true ->
    let n := count_matching matches (VDict fq) (contents (server w) c) in
    let twice := delete_twice (MemDriver matches apply_update) (VDict fq) many w in
    twice = (Ok (if many then n else Z.min 1 n),
             Ok (if many then 0 else Z.min 1 (Z.max 0 (n - 1)))) /\
    (nonzero_then_zero twice <-> 1 <= n /\ (many = true \/ n = 1)).
Proof.
  intros matches apply_update w c fq many Hc Hr n twice.
  assert (Htwice : twice = (Ok (if many then n else Z.min 1 n),
                            Ok (if many then 0 else Z.min 1 (Z.max 0 (n - 1))))).
  { subst twice. unfold delete_twice.
    rewrite (mem_delete_run matches apply_update w c fq many Hc Hr).
    cbn [fst snd]. erewrite mem_delete_run; [| exact Hc | exact Hr].
    cbn [fst called server]. rewrite contents_put. subst n.
    destruct many.
    - rewrite !removed_by_delete_all, count_matching_delete_all. reflexivity.
    - rewrite !removed_by_delete_first, count_matching_delete_first. reflexivity. }
  split; [exact Htwice |].
  rewrite Htwice. unfold nonzero_then_zero. cbn [fst snd].
  pose proof (count_matching_nonneg matches (VDict fq) (contents (server w) c)) as Hn.
  fold n in Hn. split.
  - intros [(k & Hk & Hne) H0]. injection Hk as Hk. injection H0 as H0.
    destruct many; [split; [lia | now left] | split; [lia | right; lia]].
  - intros [H1 Hcase]. destruct many.
    + split; [exists n; split; [reflexivity | lia] | reflexivity].
    + destruct Hcase as [Hm | Hn1]; [discriminate Hm |].
      split; [exists (Z.min 1 n); split; [reflexivity | lia] | f_equal; lia].
Qed.

Lemma delete_twice_counts_witness :
  _collection (self (connected two_dogs)) = Some animals /\
  reachable (server (connected two_dogs)) = true /\
  delete_twice Mongo (VDict [("name", VStr "Rex")]) true (connected two_dogs)
    = (Ok 2, Ok 0).
Proof.
  split; [reflexivity |]. split; [reflexivity |].
  exact (proj1 (delete_twice_counts eq_match set_update (connected two_dogs)
                  animals [("name", VStr "Rex")] true eq_refl eq_refl)).
Defined.

(** ** The constructor *)

Lemma truthy_str_true s : truthy_str s = true <-> s <> "".
Proof. destruct s; cbn; split; congruence. Qed.

Lemma truthy_str_false s : truthy_str s = false <-> s = "".
Proof. destruct s; cbn; split; congruence. Qed.

(** Which of the optional keys [client_kwargs] holds. *)
Lemma client_kwargs_optional_keys config :
  let kw := client_kwargs config in
  let auth := truthy_str (username config) && truthy_str (password config) in
  kw !! "username" = (if auth then Some (VStr (username config)) else None) /\
  kw !! "password" = (if auth then Some (VStr (password config)) else None) /\
  kw !! "authSource" = (if auth then Some (VStr (authSource config)) else None) /\
  kw !! "replicaSet" =
    (if truthy_opt_str (replicaSet config)
     then VStr <$> replicaSet config else None).
Proof.
  unfold client_kwargs.
  destruct (truthy_str (username config) && truthy_str (password config));
    destruct (replicaSet config) as [[|x rs]|]; cbn [truthy_opt_str truthy_str];
    repeat split; reflexivity.
Qed.

Lemma new_CRUD_first_call D config db_name collection_name (w : world D) :
  exists rest,
    calls (snd (new_CRUD D config db_name collection_name w))
    = (calls w ++ CallMongoClient D (client_kwargs config) :: rest)%list.
Proof.
  unfold new_CRUD, init, _connect, set_self, assign_client, assign_collection,
    MongoClient, ping, client_getitem, database_getitem.
  step_method. cbn.
  destruct (drv_MongoClient D (client_kwargs config) (server w)) as [[cl|e] s1]; cbn.
  - destruct (drv_ping D cl s1) as [[[]|e] s2]; cbn.
    + destruct (drv_client_getitem D cl db_name s2) as [[db|e] s3]; cbn.
      * destruct (drv_database_getitem D db collection_name s3) as [[c|e] s4]; cbn.
        -- rewrite <- !app_assoc. eexists. reflexivity.
        -- destruct (isinstance_PyMongoError e); cbn;
             rewrite <- !app_assoc; eexists; reflexivity.
      * destruct (isinstance_PyMongoError e); cbn;
          rewrite <- !app_assoc; eexists; reflexivity.
    + destruct (isinstance_PyMongoError e); cbn;
        rewrite <- !app_assoc; eexists; reflexivity.
  - destruct (isinstance_PyMongoError e); cbn; eexists; reflexivity.
Qed.

(** C6.  [client_kwargs] holds [username], [password] and [authSource]
    when the user name and the password are both non-empty, and none of
    the three when either is empty; it holds [replicaSet] when that field
    is a non-empty string and not when it is [None] or empty.  That
    dictionary is what the constructor passes to [MongoClient], its first
    call into the driver. *)
Theorem credentials_and_replica_set_options :
  forall (config : MongoConfig),
    let kw := client_kwargs config in
    (username config <> "" /\ password config <> "" ->
       kw !! "username" = Some (VStr (username config)) /\
       kw !! "password" = Some (VStr (password config)) /\
       kw !! "authSource" = Some (VStr (authSource config))) /\
    (username config = "" \/ password config = "" ->
       kw !! "username" = None /\ kw !! "password" = None /\
       kw !! "authSource" = None) /\
    (forall rs, replicaSet config = Some rs -> rs <> "" ->
       kw !! "replicaSet" = Some (VStr rs)) /\
    (replicaSet config = None \/ replicaSet config = Some "" ->
       kw !! "replicaSet" = None) /\
    (forall (D : Driver) (db_name collection_name : string) (w : world D),
       exists rest,
         calls (snd (new_CRUD D config db_name collection_name w))
         = (calls w ++ CallMongoClient D kw :: rest)%list).
Proof.
  intros config kw.
  destruct (client_kwargs_optional_keys config) as (Hu & Hp & Ha & Hr).
  fold kw in Hu, Hp, Ha, Hr. cbn zeta in Hu, Hp, Ha, Hr.
  split; [| split; [| split; [| split]]].
  - intros [Hne1 Hne2].
    apply truthy_str_true in Hne1, Hne2. rewrite Hne1, Hne2 in Hu, Hp, Ha. auto.
  - intros Hempty.
    assert (Hf : truthy_str (username config) && truthy_str (password config) = false).
    { apply andb_false_iff.
      destruct Hempty as [H | H]; [left | right]; now apply truthy_str_false. }
    rewrite Hf in Hu, Hp, Ha. auto.
  - intros rs Hrs Hne. rewrite Hrs in Hr. cbn in Hr.
    apply truthy_str_true in Hne. now rewrite Hne in Hr.
  - intros [H | H]; rewrite H in Hr; exact Hr.
  - intros D db_name collection_name w. apply new_CRUD_first_call.
Qed.

Lemma credentials_and_replica_set_options_witness :
  (username with_credentials <> "" /\ password with_credentials <> "") /\
  client_kwargs with_credentials !! "username" = Some (VStr "aacuser") /\
  client_kwargs with_credentials !! "password" = Some (VStr "secret") /\
  client_kwargs with_credentials !! "authSource" = Some (VStr "aac").
Proof.
  assert (H : username with_credentials <> "" /\ password with_credentials <> "")
    by (split; discriminate).
  split; [exact H |].
  exact (proj1 (credentials_and_replica_set_options with_credentials) H).
Defined.

(** C5, amended.  When [MongoClient] or the ping raises a [PyMongoError], the
    constructor raises one [RuntimeError] whose message ends with the
    message of the driver's exception and whose cause is that exception.
    The driver has then been called once for the client and at most once
    for the ping, and the constructor expression has no value. *)
Theorem connection_failure_is_wrapped :
  forall (D : Driver) (config : MongoConfig) (db_name collection_name : string)
         (w : world D),
    let kw := client_kwargs config in
    let construct := new_CRUD D config db_name collection_name w in
    (forall e s1,
       drv_MongoClient D kw (server w) = (Raise e, s1) ->
       isinstance_PyMongoError e = true ->
       fst construct = Raise (connection_failed e) /\
       calls (snd construct) = (calls w ++ [CallMongoClient D kw])%list /\
       _collection (self (snd construct)) = None) /\
    (forall cl s1 e s2,
       drv_MongoClient D kw (server w) = (Ok cl, s1) ->
       drv_ping D cl s1 = (Raise e, s2) ->
       isinstance_PyMongoError e = true ->
       fst construct = Raise (connection_failed e) /\
       calls (snd construct) = (calls w ++ [CallMongoClient D kw; CallPing D cl])%list /\
       _collection (self (snd construct)) = None).
Proof.
  intros D config db_name collection_name w kw construct. subst construct kw.
  unfold new_CRUD, init, _connect, set_self, assign_client, assign_collection,
    MongoClient, ping, client_getitem, database_getitem.
  step_method. cbn. split.
  - intros e s1 -> He. cbn. rewrite He. cbn. auto.
  - intros cl s1 e s2 -> Hp He. cbn. rewrite Hp. cbn. rewrite He. cbn.
    rewrite <- app_assoc. auto.
Qed.

Lemma connection_failure_is_wrapped_witness :
  drv_ping Mongo tt offline_server = (Raise unreachable_error, offline_server) /\
  isinstance_PyMongoError unreachable_error = true /\
  fst (new_CRUD Mongo MongoConfig_default "aac" "animals" (blank offline_server))
    = Raise (connection_failed unreachable_error).
Proof.
  split; [reflexivity |]. split; [reflexivity |].
  exact (proj1 (proj2 (connection_failure_is_wrapped Mongo MongoConfig_default
                  "aac" "animals" (blank offline_server))
                  tt offline_server unreachable_error offline_server
                  eq_refl eq_refl eq_refl)).
Defined.

(** C5 does not hold as stated for every failure of the driver.  A host
    that carries a port out of range makes [MongoClient] raise a
    [ValueError]; the [except] clause of [_connect] names
    [errors.PyMongoError] only, and the constructor raises that
    [ValueError] as it is, not a [RuntimeError] that wraps it. *)
Lemma connection_failure_counterexample :
  drv_MongoClient (Broken bad_port) (client_kwargs port_out_of_range) tt
    = (Raise bad_port, tt) /\
  isinstance_PyMongoError bad_port = false /\
  fst (new_CRUD (Broken bad_port) port_out_of_range "aac" "animals"
         (Build_world (Broken bad_port)
            (Build_CRUD (Broken bad_port) None None "" "") tt [] []))
    = Raise bad_port /\
  is_RuntimeError bad_port = false /\
  (forall e, bad_port <> connection_failed e).
Proof.
  split; [reflexivity |]. split; [reflexivity |]. split; [reflexivity |].
  split; [reflexivity |]. intros e H. discriminate H.
Qed.

(** ** The attributes of an instance over its lifetime *)

(** Split on every test the goal still branches on. *)
Ltac split_cases :=
  repeat (cbn;
          match goal with
          | |- context [match ?x with _ => _ end] =>
              lazymatch x with
              | context [match _ with _ => _ end] => fail
              | _ => destruct x
              end
          end).

Lemma create_keeps_self D document (w : world D) :
  self (snd (create D document w)) = self w.
Proof. step_method. split_cases; reflexivity. Qed.

Lemma read_keeps_self D query (w : world D) :
  self (snd (read D query w)) = self w.
Proof. step_method. split_cases; reflexivity. Qed.

Lemma update_keeps_self D query new_values many (w : world D) :
  self (snd (update D query new_values many w)) = self w.
Proof. step_method. split_cases; reflexivity. Qed.

Lemma delete_keeps_self D query many (w : world D) :
  self (snd (delete D query many w)) = self w.
Proof. step_method. split_cases; reflexivity. Qed.

Lemma perform_keeps_self D r (w : world D) : self (perform D r w) = self w.
Proof.
  destruct r; cbn [perform];
    auto using create_keeps_self, read_keeps_self, update_keeps_self,
      delete_keeps_self.
Qed.

Lemma perform_all_keeps_self D rs (w : world D) :
  self (perform_all D rs w) = self w.
Proof.
  revert w. induction rs as [|r rs IH]; intros w; [reflexivity |].
  cbn [perform_all fold_left]. fold (perform_all D rs (perform D r w)).
  rewrite IH. apply perform_keeps_self.
Qed.

Lemma new_CRUD_success D config db_name collection_name (w0 w : world D) inst :
  new_CRUD D config db_name collection_name w0 = (Ok inst, w) ->
  self w = inst /\
  exists cl c, inst = Build_CRUD D (Some cl) (Some c) db_name collection_name.
Proof.
  unfold new_CRUD, init, _connect, set_self, assign_client, assign_collection,
    MongoClient, ping, client_getitem, database_getitem.
  step_method. cbn.
  destruct (drv_MongoClient D (client_kwargs config) (server w0)) as [[cl|e] s1]; cbn.
  - destruct (drv_ping D cl s1) as [[[]|e] s2]; cbn.
    + destruct (drv_client_getitem D cl db_name s2) as [[db|e] s3]; cbn.
      * destruct (drv_database_getitem D db collection_name s3) as [[c|e] s4]; cbn.
        -- intros [= <- <-]. cbn. eauto.
        -- destruct (isinstance_PyMongoError e); cbn; discriminate.
      * destruct (isinstance_PyMongoError e); cbn; discriminate.
    + destruct (isinstance_PyMongoError e); cbn; discriminate.
  - destruct (isinstance_PyMongoError e); cbn; discriminate.
Qed.

(** C8.  No sequence of [create], [read], [update] and [delete] calls,
    whatever their arguments and whether they return or raise, changes an
    attribute of the instance.  After a construction that succeeds the
    client and the collection are bound, and they are the same handles
    after any such sequence. *)
Theorem operations_keep_the_attributes :
  (forall (D : Driver) (w : world D) (rs : list request),
     self (perform_all D rs w) = self w) /\
  (forall (D : Driver) (config : MongoConfig) (db_name collection_name : string)
          (w0 w : world D) (inst : CRUD D),
     new_CRUD D config db_name collection_name w0 = (Ok inst, w) ->
     exists cl c,
       inst = Build_CRUD D (Some cl) (Some c) db_name collection_name /\
       forall rs, self (perform_all D rs w) = inst).
Proof.
  split.
  - intros D w rs. apply perform_all_keeps_self.
  - intros D config db_name collection_name w0 w inst Hnew.
    destruct (new_CRUD_success D config db_name collection_name w0 w inst Hnew)
      as (Hself & cl & c & Hinst).
    exists cl, c. split; [exact Hinst |].
    intros rs. now rewrite perform_all_keeps_self.
Qed.

Lemma operations_keep_the_attributes_witness :
  new_CRUD Mongo MongoConfig_default "aac" "animals" (blank one_dog)
    = (Ok (self (connected one_dog)),
       snd (new_CRUD Mongo MongoConfig_default "aac" "animals" (blank one_dog))) /\
  exists cl c,
    self (connected one_dog) = Build_CRUD Mongo (Some cl) (Some c) "aac" "animals" /\
    forall rs,
      self (perform_all Mongo rs
              (snd (new_CRUD Mongo MongoConfig_default "aac" "animals" (blank one_dog))))
      = self (connected one_dog).
Proof.
  assert (H : new_CRUD Mongo MongoConfig_default "aac" "animals" (blank one_dog)
              = (Ok (self (connected one_dog)),
                 snd (new_CRUD Mongo MongoConfig_default "aac" "animals"
                        (blank one_dog)))).
  { rewrite (surjective_pairing (new_CRUD Mongo MongoConfig_default "aac" "animals"
                                   (blank one_dog))) at 1.
    f_equal. }
  split; [exact H |].
  exact (proj2 operations_keep_the_attributes Mongo MongoConfig_default
           "aac" "animals" (blank one_dog) _ _ H).
Defined.

(** ** A session on the reference deployment *)

(** Construct, create, read, update, read, delete, read: the values the
    calls return, one after the other. *)
Example session_on_empty_collection :
  let name_rex := VDict [("name", VStr "Rex")] in
  let to_canine := VDict [("$set", VDict [("species", VStr "Canine")])] in
  let stored species :=
    VDict [("_id", VObjectId 1); ("name", VStr "Rex"); ("species", VStr species)] in
  let w0 := snd (new_CRUD Mongo MongoConfig_default "aac" "animals"
                   (blank empty_server)) in
  let w1 := snd (create Mongo rex w0) in
  let w2 := snd (update Mongo name_rex to_canine false w1) in
  let w3 := snd (delete Mongo name_rex false w2) in
  fst (create Mongo rex w0) = Ok true /\
  fst (read Mongo name_rex w1) = Ok [stored "Dog"] /\
  fst (update Mongo name_rex to_canine false w1) = Ok 1 /\
  fst (read Mongo name_rex w2) = Ok [stored "Canine"] /\
  fst (delete Mongo name_rex false w2) = Ok 1 /\
  fst (read Mongo name_rex w3) = Ok [].
Proof. cbv zeta. repeat split; vm_compute; reflexivity. Qed.

(** * Further properties of the class *)

(** ** What each method does, call by call *)

Lemma create_run D (w : world D) c fields :
  _collection (self w) = Some c ->
  create D (VDict fields) w =
    let '(o, s') := drv_insert_one D c (VDict fields) (server w) in
    let w' := called w (CallInsertOne D c (VDict fields)) s' in
    match o with
    | Ok r => (Ok (acknowledged r && is_not_None (inserted_id r)), w')
    | Raise e => soft_failure "[MongoDB][CREATE] Error: " false e w'
    end.
Proof.
  intros Hc. step_method. cbn. rewrite Hc. unfold soft_failure, called.
  destruct (drv_insert_one D c (VDict fields) (server w)) as [[r|e] s']; cbn;
    try destruct (isinstance_PyMongoError e); reflexivity.
Qed.

Lemma read_run D (w : world D) c fields :
  _collection (self w) = Some c ->
  read D (VDict fields) w =
    let '(o, s1) := drv_find D c (VDict fields) (server w) in
    let w1 := called w (CallFind D c (VDict fields)) s1 in
    match o with
    | Ok cur =>
        let '(o', s2) := drv_list D cur s1 in
        let w2 := called w1 (CallList D cur) s2 in
        match o' with
        | Ok docs => (Ok docs, w2)
        | Raise e => soft_failure "[MongoDB][READ] Error: " [] e w2
        end
    | Raise e => soft_failure "[MongoDB][READ] Error: " [] e w1
    end.
Proof.
  intros Hc. step_method. cbn. rewrite Hc. unfold soft_failure, called.
  destruct (drv_find D c (VDict fields) (server w)) as [[cur|e] s1]; cbn.
  - destruct (drv_list D cur s1) as [[docs|e] s2]; cbn;
      try destruct (isinstance_PyMongoError e); reflexivity.
  - destruct (isinstance_PyMongoError e); reflexivity.
Qed.

Lemma new_CRUD_run D config db_name collection_name (w : world D) :
  new_CRUD D config db_name collection_name w =
    let kw := client_kwargs config in
    let obj cl c := Build_CRUD D cl c db_name collection_name in
    let '(o1, s1) := drv_MongoClient D kw (server w) in
    let k1 := (calls w ++ [CallMongoClient D kw])%list in
    match o1 with
    | Raise e => connect_failure e (Build_world D (obj None None) s1 (stdout w) k1)
    | Ok cl =>
        let '(o2, s2) := drv_ping D cl s1 in
        let k2 := (k1 ++ [CallPing D cl])%list in
        match o2 with
        | Raise e =>
            connect_failure e (Build_world D (obj (Some cl) None) s2 (stdout w) k2)
        | Ok _ =>
            let '(o3, s3) := drv_client_getitem D cl db_name s2 in
            let k3 := (k2 ++ [CallClientGetitem D cl db_name])%list in
            match o3 with
            | Raise e =>
                connect_failure e
                  (Build_world D (obj (Some cl) None) s3 (stdout w) k3)
            | Ok db =>
                let '(o4, s4) := drv_database_getitem D db collection_name s3 in
                let k4 := (k3 ++ [CallDatabaseGetitem D db collection_name])%list in
                match o4 with
                | Raise e =>
                    connect_failure e
                      (Build_world D (obj (Some cl) None) s4 (stdout w) k4)
                | Ok c =>
                    (Ok (obj (Some cl) (Some c)),
                     Build_world D (obj (Some cl) (Some c)) s4 (stdout w) k4)
                end
            end
        end
    end.
Proof.
  unfold new_CRUD, init, _connect, set_self, assign_client, assign_collection,
    MongoClient, ping, client_getitem, database_getitem, connect_failure.
  step_method. cbn.
  destruct (drv_MongoClient D (client_kwargs config) (server w)) as [[cl|e] s1]; cbn.
  - destruct (drv_ping D cl s1) as [[[]|e] s2]; cbn.
    + destruct (drv_client_getitem D cl db_name s2) as [[db|e] s3]; cbn.
      * destruct (drv_database_getitem D db collection_name s3) as [[c|e] s4]; cbn.
        -- reflexivity.
        -- destruct (isinstance_PyMongoError e); reflexivity.
      * destruct (isinstance_PyMongoError e); reflexivity.
    + destruct (isinstance_PyMongoError e); reflexivity.
  - destruct (isinstance_PyMongoError e); reflexivity.
Qed.

(** ** Exceptions outside the driver's class *)

(** X1.  An exception that is not a [PyMongoError], raised by the driver
    call of a method (or by reading the count of its result), leaves the
    method as it is: the same exception reaches the caller, no sentinel is
    returned and nothing is printed. *)
Theorem other_exceptions_reach_the_caller :
  forall (D : Driver) (w : world D) (c : Coll D)
         (fq fs : list (string * value)) (many : bool) (e : exn),
    _collection (self w) = Some c ->
    isinstance_PyMongoError e = false ->
    (forall s',
       drv_insert_one D c (VDict fq) (server w) = (Raise e, s') ->
       create D (VDict fq) w
         = (Raise e, called w (CallInsertOne D c (VDict fq)) s')) /\
    (forall s',
       drv_find D c (VDict fq) (server w) = (Raise e, s') ->
       read D (VDict fq) w = (Raise e, called w (CallFind D c (VDict fq)) s')) /\
    (forall cur s1 s2,
       drv_find D c (VDict fq) (server w) = (Ok cur, s1) ->
       drv_list D cur s1 = (Raise e, s2) ->
       read D (VDict fq) w
         = (Raise e,
            called (called w (CallFind D c (VDict fq)) s1) (CallList D cur) s2)) /\
    (forall s',
       drv_update D many c (VDict fq) (VDict fs) (server w) = (Raise e, s') ->
       update D (VDict fq) (VDict fs) many w
         = (Raise e, called w (CallUpdate D many c (VDict fq) (VDict fs)) s')) /\
    (forall r s',
       drv_update D many c (VDict fq) (VDict fs) (server w) = (Ok r, s') ->
       modified_count r = Raise e ->
       update D (VDict fq) (VDict fs) many w
         = (Raise e, called w (CallUpdate D many c (VDict fq) (VDict fs)) s')) /\
    (forall s',
       drv_delete D many c (VDict fq) (server w) = (Raise e, s') ->
       delete D (VDict fq) many w
         = (Raise e, called w (CallDelete D many c (VDict fq)) s')) /\
    (forall r s',
       drv_delete D many c (VDict fq) (server w) = (Ok r, s') ->
       deleted_count r = Raise e ->
       delete D (VDict fq) many w
         = (Raise e, called w (CallDelete D many c (VDict fq)) s')).
Proof.
  intros D w c fq fs many e Hc He.
  rewrite (create_run D w c fq Hc), (read_run D w c fq Hc),
    (update_run D w c fq fs many Hc), (delete_run D w c fq many Hc).
  unfold soft_failure. repeat split.
  - intros s' ->. now rewrite He.
  - intros s' ->. now rewrite He.
  - intros cur s1 s2 -> ->. now rewrite He.
  - intros s' ->. now rewrite He.
  - intros r s' -> ->. now rewrite He.
  - intros s' ->. now rewrite He.
  - intros r s' -> ->. now rewrite He.
Qed.

Lemma other_exceptions_reach_the_caller_witness :
  _collection (self (broken_world invalid_document)) = Some tt /\
  isinstance_PyMongoError invalid_document = false /\
  create (Broken invalid_document) rex (broken_world invalid_document)
    = (Raise invalid_document,
       called (broken_world invalid_document)
         (CallInsertOne (Broken invalid_document) tt rex) tt).
Proof.
  split; [reflexivity |]. split; [reflexivity |].
  exact (proj1 (other_exceptions_reach_the_caller (Broken invalid_document)
                  (broken_world invalid_document) tt
                  [("name", VStr "Rex"); ("species", VStr "Dog")] [] false
                  invalid_document eq_refl eq_refl) tt eq_refl).
Defined.

(** ** The constructor, step by step *)

(** X2.  The [try] of [_connect] also covers the two subscriptions
    [client[db_name]] and [db[collection_name]]: a [PyMongoError] raised
    by either is wrapped like a failure of the ping.  An exception of
    another class, at any of the four steps, is not wrapped: the
    constructor raises it as it is. *)
Theorem connect_wraps_the_driver_class_only :
  forall (D : Driver) (config : MongoConfig) (db_name collection_name : string)
         (w : world D),
    let kw := client_kwargs config in
    let construct := new_CRUD D config db_name collection_name w in
    let raised e :=
      if isinstance_PyMongoError e then Raise (connection_failed e) else Raise e in
    (forall e s1,
       drv_MongoClient D kw (server w) = (Raise e, s1) ->
       fst construct = raised e) /\
    (forall cl s1 e s2,
       drv_MongoClient D kw (server w) = (Ok cl, s1) ->
       drv_ping D cl s1 = (Raise e, s2) ->
       fst construct = raised e) /\
    (forall cl s1 u s2 e s3,
       drv_MongoClient D kw (server w) = (Ok cl, s1) ->
       drv_ping D cl s1 = (Ok u, s2) ->
       drv_client_getitem D cl db_name s2 = (Raise e, s3) ->
       fst construct = raised e /\
       _collection (self (snd construct)) = None) /\
    (forall cl s1 u s2 db s3 e s4,
       drv_MongoClient D kw (server w) = (Ok cl, s1) ->
       drv_ping D cl s1 = (Ok u, s2) ->
       drv_client_getitem D cl db_name s2 = (Ok db, s3) ->
       drv_database_getitem D db collection_name s3 = (Raise e, s4) ->
       fst construct = raised e /\
       _collection (self (snd construct)) = None).
Proof.
  intros D config db_name collection_name w kw construct raised.
  subst construct raised kw. rewrite new_CRUD_run. cbv zeta.
  unfold connect_failure. split; [| split; [| split]].
  - intros e s1 ->. destruct (isinstance_PyMongoError e); reflexivity.
  - intros cl s1 e s2 -> ->. destruct (isinstance_PyMongoError e); reflexivity.
  - intros cl s1 u s2 e s3 -> -> ->.
    destruct (isinstance_PyMongoError e); split; reflexivity.
  - intros cl s1 u s2 db s3 e s4 -> -> -> ->.
    destruct (isinstance_PyMongoError e); split; reflexivity.
Qed.

Lemma connect_wraps_the_driver_class_only_witness :
  drv_MongoClient (Broken invalid_document) (client_kwargs MongoConfig_default) tt
    = (Raise invalid_document, tt) /\
  fst (new_CRUD (Broken invalid_document) MongoConfig_default "aac" "animals"
         (Build_world (Broken invalid_document)
            (Build_CRUD (Broken invalid_document) None None "" "") tt [] []))
    = Raise invalid_document.
Proof.
  split; [reflexivity |].
  exact (proj1 (connect_wraps_the_driver_class_only (Broken invalid_document)
                  MongoConfig_default "aac" "animals"
                  (Build_world (Broken invalid_document)
                     (Build_CRUD (Broken invalid_document) None None "" "") tt [] []))
               invalid_document tt eq_refl).
Defined.

(** X3.  The constructor returns an instance exactly when the four driver
    calls [MongoClient] on [client_kwargs], the ping, [client[db_name]] and
    [db[collection_name]] return, each on the state the one before left.
    The instance then holds that client, that collection and the two
    names; these four calls, in this order, are all the constructor asked
    of the driver, and it printed nothing. *)
Theorem construction_succeeds_iff_the_four_calls_return :
  forall (D : Driver) (config : MongoConfig) (db_name collection_name : string)
         (w w' : world D) (inst : CRUD D),
    new_CRUD D config db_name collection_name w = (Ok inst, w') <->
    exists cl s1 u s2 db s3 c s4,
      drv_MongoClient D (client_kwargs config) (server w) = (Ok cl, s1) /\
      drv_ping D cl s1 = (Ok u, s2) /\
      drv_client_getitem D cl db_name s2 = (Ok db, s3) /\
      drv_database_getitem D db collection_name s3 = (Ok c, s4) /\
      inst = Build_CRUD D (Some cl) (Some c) db_name collection_name /\
      w' = Build_world D inst s4 (stdout w)
             (calls w ++ [CallMongoClient D (client_kwargs config); CallPing D cl;
                          CallClientGetitem D cl db_name;
                          CallDatabaseGetitem D db collection_name]).
Proof.
  intros D config db_name collection_name w w' inst.
  rewrite new_CRUD_run. cbv zeta. unfold connect_failure. split.
  - destruct (drv_MongoClient D (client_kwargs config) (server w))
      as [[cl|e] s1] eqn:E1.
    2: { destruct (isinstance_PyMongoError e); discriminate. }
    destruct (drv_ping D cl s1) as [[u|e] s2] eqn:E2.
    2: { destruct (isinstance_PyMongoError e); discriminate. }
    destruct (drv_client_getitem D cl db_name s2) as [[db|e] s3] eqn:E3.
    2: { destruct (isinstance_PyMongoError e); discriminate. }
    destruct (drv_database_getitem D db collection_name s3) as [[c|e] s4] eqn:E4.
    2: { destruct (isinstance_PyMongoError e); discriminate. }
    intros [= <- <-]. exists cl, s1, u, s2, db, s3, c, s4.
    rewrite <- !app_assoc. repeat split; assumption || reflexivity.
  - intros (cl & s1 & u & s2 & db & s3 & c & s4 & H1 & H2 & H3 & H4 & -> & ->).
    rewrite H1. cbv beta iota zeta. rewrite H2. cbv beta iota zeta.
    rewrite H3. cbv beta iota zeta. rewrite H4. cbv beta iota zeta.
    rewrite <- !app_assoc. reflexivity.
Qed.

Lemma construction_succeeds_iff_the_four_calls_return_witness :
  exists w',
    new_CRUD Mongo MongoConfig_default "aac" "animals" (blank one_dog)
      = (Ok (Build_CRUD Mongo (Some tt) (Some animals) "aac" "animals"), w') /\
    stdout w' = [] /\ length (calls w') = 4%nat.
Proof.
  eexists. split.
  - apply (proj2 (construction_succeeds_iff_the_four_calls_return Mongo
                    MongoConfig_default "aac" "animals" (blank one_dog) _ _)).
    exists tt, one_dog, tt, one_dog, "aac", one_dog, animals, one_dog.
    repeat split; reflexivity.
  - split; reflexivity.
Defined.

(** ** The options that do not depend on the credentials *)

(** X4.  Whatever the configuration, [client_kwargs] carries the host, the
    port, the TLS flag and both timeouts at 5000 ms, and it has no key
    beyond these five, the three of the credentials and [replicaSet]. *)
Theorem connection_options_always_present :
  forall (config : MongoConfig),
    let kw := client_kwargs config in
    kw !! "host" = Some (VStr (host config)) /\
    kw !! "port" = Some (VInt (port config)) /\
    kw !! "tls" = Some (VBool (tls config)) /\
    kw !! "connectTimeoutMS" = Some (VInt 5000) /\
    kw !! "serverSelectionTimeoutMS" = Some (VInt 5000) /\
    (forall key, is_Some (kw !! key) ->
       In key ["host"; "port"; "tls"; "connectTimeoutMS";
               "serverSelectionTimeoutMS"; "username"; "password";
               "authSource"; "replicaSet"]).
Proof.
  intros config kw. subst kw. unfold client_kwargs.
  destruct (truthy_str (username config) && truthy_str (password config));
    destruct (replicaSet config) as [[|x rs]|]; cbn [truthy_str];
    (repeat split; try reflexivity);
    intros key Hkey; apply elem_of_dom in Hkey;
    rewrite ?dom_insert_L, dom_empty_L in Hkey;
    rewrite ?elem_of_union, ?elem_of_singleton in Hkey;
    cbn [In]; intuition (subst; auto 12); exfalso; set_solver.
Qed.

Lemma connection_options_always_present_witness :
  is_Some (client_kwargs with_credentials !! "replicaSet") /\
  In "replicaSet" ["host"; "port"; "tls"; "connectTimeoutMS";
                   "serverSelectionTimeoutMS"; "username"; "password";
                   "authSource"; "replicaSet"].
Proof.
  assert (H : is_Some (client_kwargs with_credentials !! "replicaSet"))
    by (exists (VStr "rs0"); reflexivity).
  split; [exact H |].
  exact (proj2 (proj2 (proj2 (proj2 (proj2
           (connection_options_always_present with_credentials)))))
           "replicaSet" H).
Defined.

(** ** delete and update, in full *)

(** X5.  On a mapping, [delete] calls [delete_many] when [many] is true
    and [delete_one] otherwise, once, on the bound collection and with the
    caller's query.  It returns the deleted count of the result, as it is
    when it is an integer and 0 when it is [None].  When the call, or the
    reading of the count after the call, raises a [PyMongoError], it
    prints one line tagged [DELETE] and returns 0; the driver stays in the
    state the call left it in. *)
Theorem delete_delegates_and_returns_the_count :
  forall (D : Driver) (w : world D) (c : Coll D) (fq : list (string * value))
         (many : bool),
    _collection (self w) = Some c ->
    let issued := CallDelete D many c (VDict fq) in
    let failed e s' :=
      (Ok 0,
       Build_world D (self w) s'
         (stdout w ++ ["[MongoDB][DELETE] Error: " +:+ str e])
         (calls w ++ [issued])) in
    (forall r s' n,
       drv_delete D many c (VDict fq) (server w) = (Ok r, s') ->
       deleted_count r = Ok n ->
       delete D (VDict fq) many w
         = (Ok (match n with Some k => k | None => 0 end), called w issued s')) /\
    (forall e s',
       drv_delete D many c (VDict fq) (server w) = (Raise e, s') ->
       isinstance_PyMongoError e = true ->
       delete D (VDict fq) many w = failed e s') /\
    (forall r s' e,
       drv_delete D many c (VDict fq) (server w) = (Ok r, s') ->
       deleted_count r = Raise e ->
       isinstance_PyMongoError e = true ->
       delete D (VDict fq) many w = failed e s').
Proof.
  intros D w c fq many Hc issued failed. subst issued failed.
  rewrite (delete_run D w c fq many Hc). unfold soft_failure, called.
  split; [| split].
  - intros r s' n -> ->. destruct n as [k|]; [| reflexivity].
    now rewrite int_or_0_Some.
  - intros e s' -> He. now rewrite He.
  - intros r s' e -> -> He. now rewrite He.
Qed.

Lemma delete_delegates_and_returns_the_count_witness :
  _collection (self (connected two_dogs)) = Some animals /\
  fst (delete Mongo (VDict [("species", VStr "Wolf")]) true (connected two_dogs))
    = Ok 1.
Proof.
  split; [reflexivity |].
  rewrite (proj1 (delete_delegates_and_returns_the_count Mongo (connected two_dogs)
                    animals [("species", VStr "Wolf")] true eq_refl)
             {| deleted_count := Ok (Some 1) |}
             (put_contents two_dogs animals [rex]) (Some 1));
    reflexivity.
Defined.

(** X6.  [update] returns an integer count of the result as it is, and
    when the call, or the reading of the count after the call, raises a
    [PyMongoError], it prints one line tagged [UPDATE] and returns 0 while
    the driver stays in the state the call left it in: a 0 that follows a
    failed reading of the count does not undo the write. *)
Theorem update_failure_keeps_the_driver_state :
  forall (D : Driver) (w : world D) (c : Coll D)
         (fq fs : list (string * value)) (many : bool),
    _collection (self w) = Some c ->
    let issued := CallUpdate D many c (VDict fq) (VDict fs) in
    let failed e s' :=
      (Ok 0,
       Build_world D (self w) s'
         (stdout w ++ ["[MongoDB][UPDATE] Error: " +:+ str e])
         (calls w ++ [issued])) in
    (forall r s' k,
       drv_update D many c (VDict fq) (VDict fs) (server w) = (Ok r, s') ->
       modified_count r = Ok (Some k) ->
       update D (VDict fq) (VDict fs) many w = (Ok k, called w issued s')) /\
    (forall e s',
       drv_update D many c (VDict fq) (VDict fs) (server w) = (Raise e, s') ->
       isinstance_PyMongoError e = true ->
       update D (VDict fq) (VDict fs) many w = failed e s') /\
    (forall r s' e,
       drv_update D many c (VDict fq) (VDict fs) (server w) = (Ok r, s') ->
       modified_count r = Raise e ->
       isinstance_PyMongoError e = true ->
       update D (VDict fq) (VDict fs) many w = failed e s').
Proof.
  intros D w c fq fs many Hc issued failed. subst issued failed.
  rewrite (update_run D w c fq fs many Hc). unfold soft_failure, called.
  split; [| split].
  - intros r s' k -> ->. now rewrite int_or_0_Some.
  - intros e s' -> He. now rewrite He.
  - intros r s' e -> -> He. now rewrite He.
Qed.

Lemma update_failure_keeps_the_driver_state_witness :
  _collection (self (broken_world unreachable_error)) = Some tt /\
  isinstance_PyMongoError unreachable_error = true /\
  update (Broken unreachable_error) (VDict []) (VDict []) true
    (broken_world unreachable_error)
  = (Ok 0,
     Build_world (Broken unreachable_error) (self (broken_world unreachable_error)) tt
       ["[MongoDB][UPDATE] Error: " +:+ str unreachable_error]
       [CallUpdateMany (Broken unreachable_error) tt (VDict []) (VDict [])]).
Proof.
  split; [reflexivity |]. split; [reflexivity |].
  exact (proj1 (proj2 (update_failure_keeps_the_driver_state
                  (Broken unreachable_error) (broken_world unreachable_error) tt
                  [] [] true eq_refl))
               unreachable_error tt eq_refl eq_refl).
Defined.

(** ** What a call prints and what it asks of the driver *)

(** Split on every test the goal still branches on, keeping the equations. *)
Ltac split_cases_eq :=
  repeat (cbn;
          match goal with
          | |- context [match ?x with _ => _ end] =>
              lazymatch x with
              | context [match _ with _ => _ end] => fail
              | _ => destruct x eqn:?
              end
          end).

(** X7.  What a method prints is fixed by what the driver answered.  On
    mappings, with the collection bound, it prints one line, its tag
    followed by the message of the exception, when the driver call (for
    [read] the [find] or else the materialisation of the cursor, for
    [update] and [delete] the call or else the reading of the count)
    raised a [PyMongoError], and it then returns its sentinel; it prints
    nothing when the driver answered or raised an exception of another
    class.  On an argument that is not a mapping or with the collection
    unbound it prints nothing.  The constructor never prints. *)
Theorem a_method_prints_the_driver_error_only :
  forall (D : Driver) (w : world D),
    (forall document,
       let r := create D document w in
       let lines :=
         match document, _collection (self w) with
         | VDict _, Some c =>
             error_lines "[MongoDB][CREATE] Error: "
               (fst (drv_insert_one D c document (server w)))
         | _, _ => []
         end in
       stdout (snd r) = (stdout w ++ lines)%list /\
       (lines = [] \/ fst r = Ok false)) /\
    (forall query,
       let r := read D query w in
       let lines :=
         match query, _collection (self w) with
         | VDict _, Some c =>
             let '(found, s1) := drv_find D c query (server w) in
             error_lines "[MongoDB][READ] Error: "
               (and_then found (fun cur => fst (drv_list D cur s1)))
         | _, _ => []
         end in
       stdout (snd r) = (stdout w ++ lines)%list /\
       (lines = [] \/ fst r = Ok [])) /\
    (forall query new_values many,
       let r := update D query new_values many w in
       let lines :=
         match query, new_values, _collection (self w) with
         | VDict _, VDict _, Some c =>
             error_lines "[MongoDB][UPDATE] Error: "
               (and_then (fst (drv_update D many c query new_values (server w)))
                  modified_count)
         | _, _, _ => []
         end in
       stdout (snd r) = (stdout w ++ lines)%list /\
       (lines = [] \/ fst r = Ok 0)) /\
    (forall query many,
       let r := delete D query many w in
       let lines :=
         match query, _collection (self w) with
         | VDict _, Some c =>
             error_lines "[MongoDB][DELETE] Error: "
               (and_then (fst (drv_delete D many c query (server w))) deleted_count)
         | _, _ => []
         end in
       stdout (snd r) = (stdout w ++ lines)%list /\
       (lines = [] \/ fst r = Ok 0)) /\
    (forall config db_name collection_name,
       stdout (snd (new_CRUD D config db_name collection_name w)) = stdout w).
Proof.
  intros D w. split; [| split; [| split; [| split]]].
  - intros document r lines. subst r lines.
    unfold error_lines, and_then. step_method. destruct document;
    split_cases; rewrite ?app_nil_r; split; auto.
  - intros query r lines. subst r lines.
    unfold error_lines, and_then. step_method. destruct query;
    split_cases; rewrite ?app_nil_r; split; auto.
  - intros query new_values many r lines. subst r lines.
    unfold error_lines, and_then, drv_update. step_method.
    destruct query; destruct new_values;
    split_cases; rewrite ?app_nil_r; split; auto.
  - intros query many r lines. subst r lines.
    unfold error_lines, and_then, drv_delete. step_method. destruct query;
    split_cases; rewrite ?app_nil_r; split; auto.
  - intros config db_name collection_name. rewrite new_CRUD_run.
    unfold connect_failure. split_cases; reflexivity.
Qed.

(** X8.  A method asks the driver for nothing, or for exactly one call
    ([find] and then the materialisation of its cursor for [read]), on the
    collection the instance is bound to and with the arguments the caller
    gave; [update] and [delete] use the call that [many] selects.  No
    method opens a client, pings, or takes a collection again, and [read]
    issues no write. *)
Theorem a_method_calls_only_the_bound_collection :
  forall (D : Driver) (w : world D),
    (forall document,
       let k := calls (snd (create D document w)) in
       k = calls w \/
       exists c, _collection (self w) = Some c /\
                 k = (calls w ++ [CallInsertOne D c document])%list) /\
    (forall query,
       let k := calls (snd (read D query w)) in
       k = calls w \/
       exists c, _collection (self w) = Some c /\
                 (k = (calls w ++ [CallFind D c query])%list \/
                  exists cur, k = (calls w ++ [CallFind D c query; CallList D cur])%list)) /\
    (forall query new_values many,
       let k := calls (snd (update D query new_values many w)) in
       k = calls w \/
       exists c, _collection (self w) = Some c /\
                 k = (calls w ++ [CallUpdate D many c query new_values])%list) /\
    (forall query many,
       let k := calls (snd (delete D query many w)) in
       k = calls w \/
       exists c, _collection (self w) = Some c /\
                 k = (calls w ++ [CallDelete D many c query])%list).
Proof.
  intros D w. split; [| split; [| split]].
  - intros document k. subst k. step_method.
    split_cases_eq; (left; reflexivity) || (right; eexists; eauto).
  - intros query k. subst k. step_method.
    split_cases_eq; rewrite <- ?app_assoc;
      (left; reflexivity) || (right; eexists; split; [reflexivity |]; eauto).
  - intros query new_values many k. subst k. step_method.
    split_cases_eq; (left; reflexivity) || (right; eexists; eauto).
  - intros query many k. subst k. step_method.
    split_cases_eq; (left; reflexivity) || (right; eexists; eauto).
Qed.

(** X9.  When the driver's [find] and the materialisation of a cursor
    leave the driver's state as it is, so does [read], whatever its
    argument and the world: it changes neither the instance nor the
    driver, only the record of calls and, on a driver error, the output. *)
Theorem read_changes_no_state :
  forall (D : Driver),
    (forall c query s, snd (drv_find D c query s) = s) ->
    (forall cur s, snd (drv_list D cur s) = s) ->
    forall (query : value) (w : world D),
      server (snd (read D query w)) = server w /\
      self (snd (read D query w)) = self w.
Proof.
  intros D Hfind Hlist query w. split; [| apply read_keeps_self].
  step_method. destruct (isinstance_dict query); cbn; [| reflexivity].
  destruct (_collection (self w)) as [c|]; cbn; [| reflexivity].
  pose proof (Hfind c query (server w)) as Hf.
  destruct (drv_find D c query (server w)) as [[cur|e] s1]; cbn in Hf |- *; subst s1.
  - pose proof (Hlist cur (server w)) as Hl.
    destruct (drv_list D cur (server w)) as [[docs|e] s2]; cbn in Hl |- *; subst s2.
    + reflexivity.
    + destruct (isinstance_PyMongoError e); reflexivity.
  - destruct (isinstance_PyMongoError e); reflexivity.
Qed.

Lemma read_changes_no_state_witness :
  (forall c query s, snd (drv_find Mongo c query s) = s) /\
  (forall cur s, snd (drv_list Mongo cur s) = s) /\
  server (snd (read Mongo (VDict [("name", VStr "Rex")]) (connected two_dogs)))
    = two_dogs.
Proof.
  assert (Hfind : forall c query s, snd (drv_find Mongo c query s) = s)
    by reflexivity.
  assert (Hlist : forall cur s, snd (drv_list Mongo cur s) = s).
  { intros cur s. cbn. unfold online. destruct (reachable s); reflexivity. }
  split; [exact Hfind |]. split; [exact Hlist |].
  exact (proj1 (read_changes_no_state Mongo Hfind Hlist
                  (VDict [("name", VStr "Rex")]) (connected two_dogs))).
Defined.

(** ** Sequences of calls *)

Lemma perform_calls_extend D r (w : world D) :
  exists k, calls (perform D r w) = (calls w ++ k)%list /\ (length k <= 2)%nat.
Proof.
  destruct r; cbn [perform]; step_method;
    split_cases;
    first [ exists []; split; [now rewrite app_nil_r | cbn; lia]
          | eexists [_]; split; [reflexivity | cbn; lia]
          | eexists [_; _]; split; [now rewrite <- app_assoc | cbn; lia] ].
Qed.

Lemma perform_stdout_extend D r (w : world D) :
  exists l, stdout (perform D r w) = (stdout w ++ l)%list /\ (length l <= 1)%nat.
Proof.
  destruct r; cbn [perform]; step_method;
    split_cases;
    first [ exists []; split; [now rewrite app_nil_r | cbn; lia]
          | eexists [_]; split; [reflexivity | cbn; lia] ].
Qed.

(** X10.  Over any sequence of calls, returning or raising, the record of
    driver calls and the output only grow at the end: nothing recorded or
    printed before is lost, at most two driver calls are issued per call
    of a method (no call is tried again) and at most one line is printed
    per call. *)
Theorem a_sequence_of_calls_only_appends :
  forall (D : Driver) (rs : list request) (w : world D),
    exists k l,
      calls (perform_all D rs w) = (calls w ++ k)%list /\
      stdout (perform_all D rs w) = (stdout w ++ l)%list /\
      (length k <= 2 * length rs)%nat /\
      (length l <= length rs)%nat.
Proof.
  intros D rs. induction rs as [|r rs IH]; intros w.
  - exists [], []. cbn. rewrite !app_nil_r. repeat split; lia.
  - cbn [perform_all fold_left]. fold (perform_all D rs (perform D r w)).
    destruct (IH (perform D r w)) as (k & l & Hk & Hl & Hnk & Hnl).
    destruct (perform_calls_extend D r w) as (k0 & Hk0 & Hnk0).
    destruct (perform_stdout_extend D r w) as (l0 & Hl0 & Hnl0).
    exists (k0 ++ k)%list, (l0 ++ l)%list.
    rewrite Hk, Hl, Hk0, Hl0, <- !app_assoc, !length_app. cbn [length].
    repeat split; lia.
Qed.

(** ** Calls that follow one another on the reference deployment *)


Section ReferenceSequences.

Variable matches : value -> value -> bool.
Variable apply_update : value -> value -> value.

Local Abbreviation Ref := (MemDriver matches apply_update).

Lemma mem_read_value (w : world Ref) (c : string * string) fq :
  _collection (self w) = Some c ->
  reachable (server w) = true ->
  fst (read Ref (VDict fq) w)
  = Ok (List.filter (matches (VDict fq)) (contents (server w) c)).
Proof.
  intros Hc Hr. rewrite (read_run Ref w c fq Hc). cbn.
  unfold online. rewrite Hr. reflexivity.
Qed.

Lemma matching_after_delete_all query l :
  List.filter (matches query) (delete_all matches query l) = [].
Proof.
  apply filter_none. intros d Hd. unfold delete_all in Hd.
  apply filter_In in Hd as [_ Hd]. now destruct (matches query d).
Qed.

Lemma matching_after_delete_first query l :
  List.filter (matches query) (delete_first matches query l)
  = tl (List.filter (matches query) l).
Proof.
  induction l as [|d l IH]; [reflexivity |].
  cbn [delete_first List.filter]. destruct (matches query d) eqn:Hd.
  - reflexivity.
  - cbn [List.filter]. now rewrite Hd.
Qed.

Lemma others_after_delete_first query l :
  List.filter (fun d => negb (matches query d)) (delete_first matches query l)
  = List.filter (fun d => negb (matches query d)) l.
Proof.
  induction l as [|d l IH]; [reflexivity |].
  cbn [delete_first List.filter]. destruct (matches query d) eqn:Hd.
  - reflexivity.
  - cbn [List.filter negb]. rewrite Hd. cbn [negb]. now rewrite IH.
Qed.

Lemma others_after_delete_all query l :
  List.filter (fun d => negb (matches query d)) (delete_all matches query l)
  = List.filter (fun d => negb (matches query d)) l.
Proof.
  unfold delete_all. induction l as [|d l IH]; [reflexivity |].
  cbn [List.filter]. destruct (negb (matches query d)) eqn:Hd.
  - cbn [List.filter]. now rewrite Hd, IH.
  - exact IH.
Qed.

End ReferenceSequences.

(** X11.  On the reference deployment, when the server can be reached, a
    [read] that follows a [delete] with the same query returns no record
    when [many] was true and the former matches without the first when it
    was false; the records that do not match the query are all still
    stored. *)
Theorem read_after_delete :
  forall (matches : value -> value -> bool) (apply_update : value -> value -> value)
         (w : world (MemDriver matches apply_update)) (c : string * string)
         (fq : list (string * value)) (many : bool),
    _collection (self w) = Some c ->
    reachable (server w) = true ->
    let before := contents (server w) c in
    let w' := snd (delete (MemDriver matches apply_update) (VDict fq) many w) in
    fst (read (MemDriver matches apply_update) (VDict fq) w')
      = Ok (if many then []
            else tl (List.filter (matches (VDict fq)) before)) /\
    List.filter (fun d => negb (matches (VDict fq) d)) (contents (server w') c)
      = List.filter (fun d => negb (matches (VDict fq) d)) before.
Proof.
  intros matches apply_update w c fq many Hc Hr before w'. subst w'.
  rewrite (mem_delete_run matches apply_update w c fq many Hc Hr).
  cbn [snd]. split.
  - rewrite (mem_read_value matches apply_update _ c fq); [| exact Hc | exact Hr].
    cbn [called server]. rewrite contents_put. fold before. destruct many.
    + now rewrite matching_after_delete_all.
    + now rewrite matching_after_delete_first.
  - cbn [called server]. rewrite contents_put. fold before. destruct many.
    + apply others_after_delete_all.
    + apply others_after_delete_first.
Qed.

Lemma read_after_delete_witness :
  _collection (self (connected two_dogs)) = Some animals /\
  reachable (server (connected two_dogs)) = true /\
  fst (read Mongo (VDict [("name", VStr "Rex")])
         (snd (delete Mongo (VDict [("name", VStr "Rex")]) false
                 (connected two_dogs))))
    = Ok [VDict [("name", VStr "Rex"); ("species", VStr "Wolf")]].
Proof.
  split; [reflexivity |]. split; [reflexivity |].
  exact (proj1 (read_after_delete eq_match set_update (connected two_dogs) animals
                  [("name", VStr "Rex")] false eq_refl eq_refl)).
Defined.



(** ** A False that is not a failure of the driver *)

(** X13.  When [insert_one] returns a result that is not acknowledged, or
    whose inserted id is [None], [create] returns [False] and prints
    nothing, while the driver is in the state the insertion left it in:
    [False] without a printed line does not tell that nothing was
    stored. *)
Theorem create_False_without_a_line :
  forall (D : Driver) (w : world D) (c : Coll D) (fields : list (string * value))
         (r : InsertOneResult) (s' : Server D),
    _collection (self w) = Some c ->
    drv_insert_one D c (VDict fields) (server w) = (Ok r, s') ->
    acknowledged r = false \/ inserted_id r = VNone ->
    create D (VDict fields) w
      = (Ok false, called w (CallInsertOne D c (VDict fields)) s').
Proof.
  intros D w c fields r s' Hc Hd Hr.
  rewrite (create_run D w c fields Hc), Hd. cbv beta iota zeta.
  destruct Hr as [-> | ->]; [reflexivity |].
  now rewrite andb_false_r.
Qed.

Lemma create_False_without_a_line_witness :
  _collection (self (connected empty_server)) = Some animals /\
  fst (create Mongo (VDict [("_id", VNone); ("name", VStr "Rex")])
         (connected empty_server)) = Ok false /\
  stdout (snd (create Mongo (VDict [("_id", VNone); ("name", VStr "Rex")])
                 (connected empty_server))) = [] /\
  contents (server (snd (create Mongo (VDict [("_id", VNone); ("name", VStr "Rex")])
                           (connected empty_server)))) animals
    = [VDict [("_id", VNone); ("name", VStr "Rex")]].
Proof.
  split; [reflexivity |].
  rewrite (create_False_without_a_line Mongo (connected empty_server) animals
             [("_id", VNone); ("name", VStr "Rex")]
             {| acknowledged := true; inserted_id := VNone |}
             (put_contents empty_server animals
                [VDict [("_id", VNone); ("name", VStr "Rex")]])
             eq_refl eq_refl (or_intror eq_refl)).
  repeat split; reflexivity.
Defined.
